(** * get-sys-info: the inventory collector of [main.py]

    A shallow embedding of [SystemInfoCollector]: the command runner, the
    per-platform fact collectors, the GPU enumerator, the merge into the
    ordered record [specs], and the report writer.

    Python text is modelled as [string]; every character stands for the code
    point of the same number (0..255).  The program's surroundings (platform
    identity, clock, shell, the optional [wmi] module, standard input, the
    file system) are gathered in one record [Env]; the methods run in a
    state-and-exception monad over the collector's mutable state. *)

From Stdlib Require Import String Ascii List ZArith Lia Bool DecimalString.
From Stdlib Require DecimalNat.
Import ListNotations.
Open Scope string_scope.
Open Scope nat_scope.

(** ** Python built-ins on text *)

Module PyStr.

(** [str.isspace] for one character, on the code points below 256:
    TAB, LF, VT, FF, CR, FS, GS, RS, US, SPACE, NEL (0x85), NBSP (0xA0). *)
Definition isspace (c : ascii) : bool :=
  let n := nat_of_ascii c in
  ((9 <=? n) && (n <=? 13)) || ((28 <=? n) && (n <=? 32))
  || (n =? 133) || (n =? 160).

Fixpoint all_space (s : string) : bool :=
  match s with
  | EmptyString => true
  | String c r => isspace c && all_space r
  end.

Fixpoint lstrip (s : string) : string :=
  match s with
  | EmptyString => EmptyString
  | String c r => if isspace c then lstrip r else s
  end.

Fixpoint rstrip (s : string) : string :=
  match s with
  | EmptyString => EmptyString
  | String c r =>
      match rstrip r with
      | EmptyString => if isspace c then EmptyString else String c EmptyString
      | r' => String c r'
      end
  end.

(** [s.strip()] with no argument. *)
Definition strip (s : string) : string := rstrip (lstrip s).

(** First and last character of a text, when it has one. *)
Definition first_char (s : string) : option ascii :=
  match s with
  | EmptyString => None
  | String c _ => Some c
  end.

Fixpoint last_char (s : string) : option ascii :=
  match s with
  | EmptyString => None
  | String c EmptyString => Some c
  | String _ r => last_char r
  end.

(** A text is trimmed when neither end is whitespace. *)
Definition no_space_at (o : option ascii) : bool :=
  match o with
  | None => true
  | Some c => negb (isspace c)
  end.

Definition trimmed (s : string) : bool :=
  no_space_at (first_char s) && no_space_at (last_char s).

(** Truth value of a text: [not s] holds exactly for the empty text. *)
Definition is_empty (s : string) : bool :=
  match s with
  | EmptyString => true
  | _ => false
  end.

(** Decimal rendering of a natural number and of an integer, as [str(n)]
    and [f"{n}"] give. *)
Definition str_of_nat (n : nat) : string :=
  NilEmpty.string_of_uint (Nat.to_uint n).

Definition str_of_N (n : N) : string :=
  NilEmpty.string_of_uint (N.to_uint n).

(** [f"{n:02d}"]-style padding used by [strftime] fields. *)
Definition pad2 (n : nat) : string :=
  if n <? 10 then String "0" (str_of_nat n) else str_of_nat n.

(** [sep.join(parts)]. *)
Fixpoint join (sep : string) (parts : list string) : string :=
  match parts with
  | [] => EmptyString
  | [p] => p
  | p :: rest => p ++ sep ++ join sep rest
  end.

(** *** [int(s)] on text, base 10

    Surrounding whitespace is dropped, one sign is allowed, then decimal
    digits with single underscores between digits.  [None] stands for
    [ValueError].  A text of ASCII characters only is scanned as it is,
    with the C notion of whitespace; in any other text every character
    from code point 127 on first becomes a blank when it is whitespace and
    a question mark otherwise.  A run of more than 4300 digits (the
    interpreter's default limit, underscores not counted) is refused. *)
Definition digit_val (c : ascii) : option Z :=
  let n := nat_of_ascii c in
  if (48 <=? n) && (n <=? 57) then Some (Z.of_nat (n - 48)) else None.

Definition is_underscore (c : ascii) : bool := nat_of_ascii c =? 95.

(** [digits_from acc s]: [s] continues a digit run whose value so far is
    [acc]; an underscore must be followed by a digit. *)
Fixpoint digits_from (acc : Z) (s : string) : option Z :=
  match s with
  | EmptyString => Some acc
  | String c r =>
      match digit_val c with
      | Some d => digits_from (acc * 10 + d) r
      | None =>
          if is_underscore c then
            match r with
            | String c' r' =>
                match digit_val c' with
                | Some d => digits_from (acc * 10 + d) r'
                | None => None
                end
            | EmptyString => None
            end
          else None
      end
  end.

(** [sys.get_int_max_str_digits()], at its default. *)
Definition max_str_digits : N := 4300.

Fixpoint count_digits (s : string) : N :=
  match s with
  | EmptyString => 0
  | String c r =>
      match digit_val c with
      | Some _ => N.succ (count_digits r)
      | None => count_digits r
      end
  end.

Definition unsigned_int (s : string) : option Z :=
  match s with
  | EmptyString => None
  | String c r =>
      match digit_val c with
      | Some d =>
          if (max_str_digits <? count_digits s)%N then None
          else digits_from d r
      | None => None
      end
  end.

(** [isspace] of the C locale. *)
Definition c_isspace (c : ascii) : bool :=
  let n := nat_of_ascii c in
  ((9 <=? n) && (n <=? 13)) || (n =? 32).

Fixpoint c_lstrip (s : string) : string :=
  match s with
  | EmptyString => EmptyString
  | String c r => if c_isspace c then c_lstrip r else s
  end.

Fixpoint c_rstrip (s : string) : string :=
  match s with
  | EmptyString => EmptyString
  | String c r =>
      match c_rstrip r with
      | EmptyString => if c_isspace c then EmptyString else String c EmptyString
      | r' => String c r'
      end
  end.

Fixpoint is_ascii (s : string) : bool :=
  match s with
  | EmptyString => true
  | String c r => (nat_of_ascii c <? 128) && is_ascii r
  end.

Fixpoint spaces_to_blank (s : string) : string :=
  match s with
  | EmptyString => EmptyString
  | String c r =>
      String (if nat_of_ascii c <? 127 then c
              else if isspace c then " "%char else "?"%char)
             (spaces_to_blank r)
  end.

Definition int (s : string) : option Z :=
  let t := if is_ascii s then s else spaces_to_blank s in
  match c_rstrip (c_lstrip t) with
  | String "+" r => unsigned_int r
  | String "-" r => option_map Z.opp (unsigned_int r)
  | u => unsigned_int u
  end.

End PyStr.


(** ** Values held by the record *)

(** A Python float of this program is always [round(n / 1024**k, 2)] for an
    integer [n]; it is kept as its sign and its exact number of hundredths.
    The sign is kept apart because a small negative quotient rounds to
    [-0.0]. *)
Record pyfloat := mkFloat { f_neg : bool; f_centi : N }.

Inductive pyval :=
| PStr (s : string)
| PFloat (f : pyfloat)
| PNone.

Module PyNum.

Local Open Scope Z_scope.

(** Nearest integer to [a / d], ties to the even one ([0 <= a], [0 < d]). *)
Definition round_half_even (a d : Z) : Z :=
  let q := a / d in
  let r := a mod d in
  if 2 * r <? d then q
  else if d <? 2 * r then q + 1
  else if Z.even q then q else q + 1.

(** Conversion of an integer magnitude to binary64: 53 significant bits,
    ties to even. *)
Definition to_double (a : Z) : Z :=
  if a <? 2 ^ 53 then a
  else let e := Z.log2 a - 52 in round_half_even a (2 ^ e) * 2 ^ e.

(** [round(n / 1024**k, 2)]. *)
Definition round_gb (n : Z) (k : Z) : pyfloat :=
  mkFloat (n <? 0)
          (Z.to_N (round_half_even (100 * to_double (Z.abs n)) (1024 ^ k))).

(** [int / int] raises [OverflowError] when the quotient does not fit a
    binary64; for a division by 1024 that is from [2^1034 - 2^980] on. *)
Definition div1024_overflows (n : Z) : bool :=
  2 ^ 1034 - 2 ^ 980 <=? Z.abs n.

(** [repr(x)], which is also [str(x)] and what [json] writes for a finite
    float: the shortest decimal text, with at least one fractional digit.
    Exact for values below [10^13]; above that the interpreter's shortest
    digits, and from [10^16] on its scientific notation, are not
    reproduced.  No statement below depends on the digits. *)
Definition float_repr (f : pyfloat) : string :=
  let h := f_centi f in
  let whole := PyStr.str_of_N (h / 100)%N in
  let frac := (h mod 100)%N in
  let frac_text :=
    if (frac mod 10 =? 0)%N then PyStr.str_of_N (frac / 10)%N
    else if (frac <? 10)%N then String "0" (PyStr.str_of_N frac)
    else PyStr.str_of_N frac in
  ((if f_neg f then "-" else "") ++ whole ++ "." ++ frac_text)%string.

End PyNum.

(** [str(v)]. *)
Definition py_str (v : pyval) : string :=
  match v with
  | PStr s => s
  | PFloat f => PyNum.float_repr f
  | PNone => "None"
  end.

(** ** The ordered mapping [dict]

    A Python [dict] keeps its keys in insertion order; assigning to a key
    that is present replaces the value in place. *)
Definition dict := list (string * pyval).

Fixpoint dict_get (k : string) (d : dict) : option pyval :=
  match d with
  | [] => None
  | (k', v) :: r => if String.eqb k' k then Some v else dict_get k r
  end.

Fixpoint dict_set (k : string) (v : pyval) (d : dict) : dict :=
  match d with
  | [] => [(k, v)]
  | (k', v') :: r =>
      if String.eqb k' k then (k', v) :: r else (k', v') :: dict_set k v r
  end.

Definition dict_keys (d : dict) : list string := map fst d.

(** [d.get(k, default)]. *)
Definition dict_get_default (k : string) (default : pyval) (d : dict)
  : pyval :=
  match dict_get k d with
  | Some v => v
  | None => default
  end.

(** What [get_gpu_info] hands to the merge loop: a list of objects, each a
    [dict] or something else ([isinstance(gpu, dict)] tells them apart). *)
Inductive pyobj :=
| ODict (d : dict)
| OVal (v : pyval).

(** ** The surroundings of a run *)

(** [datetime.now()] and the two [strftime] formats the program uses. *)
Record datetime := mkDatetime {
  dt_year : nat; dt_month : nat; dt_day : nat;
  dt_hour : nat; dt_minute : nat; dt_second : nat
}.

(** ['%Y-%m-%d %H:%M:%S'] *)
Definition strftime_scan (t : datetime) : string :=
  PyStr.str_of_nat (dt_year t) ++ "-" ++ PyStr.pad2 (dt_month t) ++ "-"
  ++ PyStr.pad2 (dt_day t) ++ " " ++ PyStr.pad2 (dt_hour t) ++ ":"
  ++ PyStr.pad2 (dt_minute t) ++ ":" ++ PyStr.pad2 (dt_second t).

(** ['%Y%m%d_%H%M%S'] *)
Definition strftime_stamp (t : datetime) : string :=
  PyStr.str_of_nat (dt_year t) ++ PyStr.pad2 (dt_month t)
  ++ PyStr.pad2 (dt_day t) ++ "_" ++ PyStr.pad2 (dt_hour t)
  ++ PyStr.pad2 (dt_minute t) ++ PyStr.pad2 (dt_second t).

(** The structured management interface ([import wmi]).  A text property is
    a text or null; a numeric property is its integer value or null. *)
Record Win32_ComputerSystem := mkComputerSystem {
  cs_Manufacturer : option string;
  cs_Model : option string;
  cs_TotalPhysicalMemory : option Z
}.

Record Win32_Processor := mkProcessor { cpu_Name : option string }.

Record Win32_BIOS := mkBIOS { bios_SerialNumber : option string }.

Record Win32_OperatingSystem := mkOperatingSystem { os_Caption : option string }.

Record Win32_DiskDrive := mkDiskDrive {
  disk_Model : option string;
  disk_Size : option Z
}.

Record Win32_VideoController := mkVideoController {
  gpu_Name : option string;
  gpu_AdapterRAM : option Z;
  gpu_DriverVersion : option string
}.

(** A connection [wmi.WMI()]; a query that raises is [None]. *)
Record wmi_connection := mkWmi {
  q_ComputerSystem : option (list Win32_ComputerSystem);
  q_Processor : option (list Win32_Processor);
  q_BIOS : option (list Win32_BIOS);
  q_OperatingSystem : option (list Win32_OperatingSystem);
  q_DiskDrive : option (list Win32_DiskDrive);
  q_VideoController : option (list Win32_VideoController)
}.

Inductive wmi_module :=
| WmiMissing                       (* [import wmi] raises ImportError *)
| WmiUnreachable                   (* [wmi.WMI()] raises *)
| WmiConnected (c : wmi_connection).

(** File-system locations, built as [pathlib] builds them. *)
Inductive path :=
| Path (s : string)
| Parent (p : path)
| Slash (p : path) (name : string).

Record Env := mkEnv {
  platform_system : string;
  platform_platform : string;
  platform_node : string;
  platform_version : string;
  platform_machine : string;
  now_collect : datetime;            (* [datetime.now()] in [collect_info] *)
  now_save : datetime;               (* [datetime.now()] in [save_results] *)
  check_output : string -> option string;
      (* [subprocess.check_output(cmd, shell=True, text=True, ...)]:
         the captured standard output, or [None] when it raises *)
  wmi : wmi_module;
  sys_meipass : option string;       (* [sys._MEIPASS] when [sys.frozen] *)
  script_file_dir : string;          (* [os.path.dirname(os.path.abspath(__file__))] *)
  stdin_line : option string;        (* what [input] reads; [None] at end of input *)
  fs_writable : path -> bool         (* may this directory or file be created *)
}.

(** ** The collector's state and its monad *)

Inductive exn :=
| ImportError | WmiError | IndexError | TypeError | ValueError
| OverflowError | EOFError | OSError.

(** Contents of the two report files: the rows handed to [csv.writer] and
    the object handed to [json.dump]. *)
Inductive json_value :=
| JString (s : string)
| JNumber (f : pyfloat)
| JNull.

Inductive file_content :=
| CsvFile (rows : list (list string))
| JsonFile (members : list (string * json_value)).

(** What a run does to the outside, in order. *)
Inductive event :=
| Ran (command : string)
| Asked (prompt : string)
| MadeDir (p : path)
| Wrote (p : path) (c : file_content).

Record State := mkState {
  specs : dict;            (* [self.specs] *)
  trace : list event
}.

Inductive outcome (A : Type) :=
| Return (a : A)
| Raise (e : exn).
Arguments Return {A} a.
Arguments Raise {A} e.

Definition M (A : Type) : Type := State -> State * outcome A.

Definition ret {A} (a : A) : M A := fun st => (st, Return a).

Definition raise {A} (e : exn) : M A := fun st => (st, Raise e).

Definition bind {A B} (m : M A) (k : A -> M B) : M B :=
  fun st =>
    match m st with
    | (st', Return a) => k a st'
    | (st', Raise e) => (st', Raise e)
    end.

Notation "x <- m ;; k" := (bind m (fun x => k))
  (at level 61, m at next level, right associativity).
Notation "m ;;; k" := (bind m (fun _ => k))
  (at level 61, right associativity).

(** [try: body except: handler] (a bare [except] catches everything). *)
Definition try_except {A} (body handler : M A) : M A :=
  fun st =>
    match body st with
    | (st', Return a) => (st', Return a)
    | (st', Raise _) => handler st'
    end.

(** [try: body except ImportError: handler]. *)
Definition try_except_import {A} (body handler : M A) : M A :=
  fun st =>
    match body st with
    | (st', Raise ImportError) => handler st'
    | r => r
    end.

(** [self.specs[k] = v] *)
Definition set_spec (k : string) (v : pyval) : M unit :=
  fun st => (mkState (dict_set k v (specs st)) (trace st), Return tt).

Definition emit (e : event) : M unit :=
  fun st => (mkState (specs st) (trace st ++ [e])%list, Return tt).

(** Lifting of a partial built-in: [None] raises [e]. *)
Definition or_raise {A} (e : exn) (o : option A) : M A :=
  match o with
  | Some a => ret a
  | None => raise e
  end.

(** ** The methods of [SystemInfoCollector] *)

Definition of_text (o : option string) : pyval :=
  match o with
  | Some s => PStr s
  | None => PNone
  end.

(** [json.dump] of one value of the record. *)
Definition to_json (v : pyval) : json_value :=
  match v with
  | PStr s => JString s
  | PFloat f => JNumber f
  | PNone => JNull
  end.

Section Collector.

Variable env : Env.

(** [self.system], set by [__init__] from [platform.system()]. *)
Definition system : string := platform_system env.

Definition get_command_output (command : string) : M string :=
  emit (Ran command) ;;;
  match check_output env command with
  | Some output => ret (PyStr.strip output)
  | None => ret "Not available"
  end.

(** [round(int(text) / 1024 / ..., 2)] with [k] divisions by 1024. *)
Definition int_to_gb (text : string) (k : Z) : M pyfloat :=
  n <- or_raise ValueError (PyStr.int text) ;;
  if PyNum.div1024_overflows n then raise OverflowError
  else ret (PyNum.round_gb n k).

Definition get_linux_info : M unit :=
  cpu <- get_command_output "lscpu | grep 'Model name' | cut -f 2 -d ':'" ;;
  set_spec "CPU" (PStr cpu) ;;;
  mem_kb <- get_command_output "grep MemTotal /proc/meminfo | awk '{print $2}'" ;;
  try_except
    (gb <- int_to_gb mem_kb 2 ;; set_spec "RAM_GB" (PFloat gb))
    (set_spec "RAM_GB" (PStr "Unknown")) ;;;
  storage <- get_command_output "df -h / | awk 'NR==2 {print $2}'" ;;
  set_spec "Storage" (PStr storage) ;;;
  serial <- get_command_output "sudo dmidecode -s system-serial-number" ;;
  set_spec "Serial_Number" (PStr serial) ;;;
  model <- get_command_output "sudo dmidecode -s system-product-name" ;;
  set_spec "Model" (PStr model) ;;;
  manufacturer <- get_command_output "sudo dmidecode -s system-manufacturer" ;;
  set_spec "Manufacturer" (PStr manufacturer).

Definition get_mac_info : M unit :=
  serial <- get_command_output
    "system_profiler SPHardwareDataType | grep 'Serial Number' | awk '{print $4}'" ;;
  set_spec "Serial_Number" (PStr serial) ;;;
  model <- get_command_output
    "system_profiler SPHardwareDataType | grep 'Model Name' | cut -f 2 -d ':'" ;;
  set_spec "Model" (PStr model) ;;;
  cpu <- get_command_output "sysctl -n machdep.cpu.brand_string" ;;
  set_spec "CPU" (PStr cpu) ;;;
  ram_bytes <- get_command_output "sysctl hw.memsize | awk '{print $2}'" ;;
  try_except
    (gb <- int_to_gb ram_bytes 3 ;; set_spec "RAM_GB" (PFloat gb))
    (set_spec "RAM_GB" (PStr "Unknown")) ;;;
  storage <- get_command_output
    "diskutil info disk0 | grep 'Disk Size' | awk '{print $3,$4}'" ;;
  set_spec "Storage" (PStr storage).

(** [import wmi; c = wmi.WMI()] *)
Definition wmi_connect : M wmi_connection :=
  match wmi env with
  | WmiMissing => raise ImportError
  | WmiUnreachable => raise WmiError
  | WmiConnected c => ret c
  end.

(** [c.Win32_X()[0]] *)
Definition first_of {A} (q : option (list A)) : M A :=
  rows <- or_raise WmiError q ;;
  or_raise IndexError (hd_error rows).

(** [round(float(x) / 1024**3, 2)]; [float(None)] raises [TypeError]. *)
Definition float_to_gb (x : option Z) : M pyfloat :=
  n <- or_raise TypeError x ;;
  ret (PyNum.round_gb n 3).

(** The loop over [c.Win32_DiskDrive()] that fills [disks]. *)
Fixpoint describe_disks (drives : list Win32_DiskDrive) (disks : list string)
  : M (list string) :=
  match drives with
  | [] => ret disks
  | disk :: rest =>
      size_gb <- float_to_gb (disk_Size disk) ;;
      let entry := py_str (of_text (disk_Model disk)) ++ " ("
                   ++ PyNum.float_repr size_gb ++ " GB)" in
      describe_disks rest (List.app disks [entry])
  end.

Definition get_windows_info : M unit :=
  try_except_import
    (c <- wmi_connect ;;
     system <- first_of (q_ComputerSystem c) ;;
     cpu <- first_of (q_Processor c) ;;
     bios <- first_of (q_BIOS c) ;;
     os_info <- first_of (q_OperatingSystem c) ;;
     set_spec "Serial_Number" (of_text (bios_SerialNumber bios)) ;;;
     set_spec "Manufacturer" (of_text (cs_Manufacturer system)) ;;;
     set_spec "Model" (of_text (cs_Model system)) ;;;
     set_spec "CPU" (of_text (cpu_Name cpu)) ;;;
     ram <- float_to_gb (cs_TotalPhysicalMemory system) ;;
     set_spec "RAM_GB" (PFloat ram) ;;;
     drives <- or_raise WmiError (q_DiskDrive c) ;;
     disks <- describe_disks drives [] ;;
     set_spec "Storage" (PStr (PyStr.join ", " disks)))
    (serial <- get_command_output "wmic bios get serialnumber" ;;
     set_spec "Serial_Number" (PStr serial) ;;;
     model <- get_command_output "wmic computersystem get model" ;;
     set_spec "Model" (PStr model) ;;;
     cpu <- get_command_output "wmic cpu get name" ;;
     set_spec "CPU" (PStr cpu) ;;;
     ram <- get_command_output "wmic computersystem get totalphysicalmemory" ;;
     set_spec "RAM_GB" (PStr ram) ;;;
     storage <- get_command_output "wmic diskdrive get size,model" ;;
     set_spec "Storage" (PStr storage)).

(** The dict built for one video controller. *)
Definition gpu_descriptor (gpu : Win32_VideoController) : pyobj :=
  let memory :=
    match gpu_AdapterRAM gpu with
    | Some ram =>
        if (ram =? 0)%Z then "Unknown"
        else PyNum.float_repr (PyNum.round_gb ram 3) ++ " GB"
    | None => "Unknown"
    end in
  ODict [("Name", of_text (gpu_Name gpu));
         ("Memory", PStr memory);
         ("Driver_Version", of_text (gpu_DriverVersion gpu))].

(** A probe's text wrapped as [{'Name': gpu_info}]. *)
Definition name_only (gpu_info : string) : pyobj :=
  ODict [("Name", PStr gpu_info)].

(** The result is [None] where the method falls off its end. *)
Definition get_gpu_info : M (option (list pyobj)) :=
  if String.eqb system "Windows" then
    try_except
      (c <- wmi_connect ;;
       controllers <- or_raise WmiError (q_VideoController c) ;;
       ret (Some (map gpu_descriptor controllers)))
      (gpu_info <- get_command_output
         "wmic path win32_VideoController get name,adapterram,driverversion" ;;
       ret (Some [name_only gpu_info]))
  else if String.eqb system "Linux" then
    gpu_info <- get_command_output "lspci | grep -E 'vga|3d|2d'" ;;
    gpu_info <-
      (if PyStr.is_empty gpu_info then
         gpu_info <- get_command_output
           "nvidia-smi --query-gpu=gpu_name,memory.total,driver_version --format=csv,noheader" ;;
         if PyStr.is_empty gpu_info then
           get_command_output "glxinfo | grep 'OpenGL renderer'"
         else ret gpu_info
       else ret gpu_info) ;;
    ret (Some [name_only gpu_info])
  else if String.eqb system "Darwin" then
    gpu_info <- get_command_output "system_profiler SPDisplaysDataType" ;;
    ret (Some [name_only gpu_info])
  else ret None.

(** [f'GPU_{i+1}'] and its three suffixed forms. *)
Definition gpu_key (i : nat) (suffix : string) : string :=
  "GPU_" ++ PyStr.str_of_nat (i + 1) ++ suffix.

(** The body of the merge loop for the [i]-th descriptor. *)
Definition merge_gpu (i : nat) (gpu : pyobj) : M unit :=
  match gpu with
  | ODict d =>
      set_spec (gpu_key i "_Name") (dict_get_default "Name" (PStr "Unknown") d) ;;;
      set_spec (gpu_key i "_Memory") (dict_get_default "Memory" (PStr "Unknown") d) ;;;
      set_spec (gpu_key i "_Driver")
               (dict_get_default "Driver_Version" (PStr "Unknown") d)
  | OVal v => set_spec (gpu_key i "") (PStr (py_str v))
  end.

(** [for i, gpu in enumerate(gpu_info)], from index [i] on. *)
Fixpoint merge_gpus (i : nat) (gpu_info : list pyobj) : M unit :=
  match gpu_info with
  | [] => ret tt
  | gpu :: rest => merge_gpu i gpu ;;; merge_gpus (S i) rest
  end.

Definition collect_info : M dict :=
  set_spec "OS" (PStr (platform_platform env)) ;;;
  set_spec "Hostname" (PStr (platform_node env)) ;;;
  set_spec "OS_Version" (PStr (platform_version env)) ;;;
  set_spec "Architecture" (PStr (platform_machine env)) ;;;
  set_spec "Scan_Date" (PStr (strftime_scan (now_collect env))) ;;;
  (if String.eqb system "Linux" then get_linux_info
   else if String.eqb system "Darwin" then get_mac_info
   else if String.eqb system "Windows" then get_windows_info
   else ret tt) ;;;
  gpu_info <- get_gpu_info ;;
  (* [enumerate(None)] raises TypeError *)
  descriptors <- or_raise TypeError gpu_info ;;
  merge_gpus 0 descriptors ;;;
  (fun st => (st, Return (specs st))).

(** The rows and the object written by [save_results]. *)
Definition csv_rows (d : dict) : list (list string) :=
  ["Specification"; "Value"] :: map (fun kv => [fst kv; py_str (snd kv)]) d.

Definition json_members (d : dict) : list (string * json_value) :=
  map (fun kv => (fst kv, to_json (snd kv))) d.

(** [open(p, 'w')] and the writes into it. *)
Definition write_file (p : path) (c : file_content) : M unit :=
  if fs_writable env p then emit (Wrote p c) else raise OSError.

(** [p.mkdir(exist_ok=True)] *)
Definition mkdir (p : path) : M unit :=
  if fs_writable env p then emit (MadeDir p) else raise OSError.

(** The base name chosen from the prompt's response and the time stamp. *)
Definition report_base (response : string) (timestamp : string) : string :=
  let filename_base := PyStr.strip response in
  let filename_base :=
    if PyStr.is_empty filename_base then "system_info" else filename_base in
  filename_base ++ "_" ++ timestamp.

Definition save_results : M (path * path) :=
  let script_dir :=
    match sys_meipass env with
    | Some meipass => Parent (Path meipass)
    | None => Path (script_file_dir env)
    end in
  let timestamp := strftime_stamp (now_save env) in
  emit (Asked "Enter a name for the report (without extension): ") ;;;
  response <- or_raise EOFError (stdin_line env) ;;
  let filename_base := report_base response timestamp in
  let reports_dir := Slash script_dir "reports" in
  mkdir reports_dir ;;;
  let csv_file := Slash reports_dir (filename_base ++ ".csv") in
  (fun st => write_file csv_file (CsvFile (csv_rows (specs st))) st) ;;;
  let json_file := Slash reports_dir (filename_base ++ ".json") in
  (fun st => write_file json_file (JsonFile (json_members (specs st))) st) ;;;
  ret (csv_file, json_file).

End Collector.

(** The state [__init__] leaves: an empty record, nothing done yet. *)
Definition init : State := mkState [] [].

(** ** Sample surroundings, used to run the model on concrete inputs *)

Definition sample_time : datetime := mkDatetime 2024 3 5 14 7 9.

Definition sample_env (sys : string) (run : string -> option string)
  (w : wmi_module) : Env :=
  mkEnv sys "Sample-OS-1.0" "host" "#1 SMP" "x86_64"
        sample_time sample_time run w None "/opt/tool" (Some "")
        (fun _ => true).

(** A shell in which every command fails. *)
Definition all_fail : string -> option string := fun _ => None.

(** A shell that knows the commands of one table and fails on the rest. *)
Fixpoint shell (table : list (string * string)) (command : string)
  : option string :=
  match table with
  | [] => None
  | (c, out) :: rest =>
      if String.eqb c command then Some out else shell rest command
  end.

(** The record a run leaves and how [collect_info] ended. *)
Definition run_collect (e : Env) : State * outcome dict := collect_info e init.

Definition with_stdin (e : Env) (line : option string) : Env :=
  mkEnv (platform_system e) (platform_platform e) (platform_node e)
        (platform_version e) (platform_machine e) (now_collect e)
        (now_save e) (check_output e) (wmi e) (sys_meipass e)
        (script_file_dir e) line (fs_writable e).

(** ** Derived notions used in the statements *)

(** What the runner hands back for a command: the trimmed output, or the
    sentinel. *)
Definition runner_text (e : Env) (command : string) : string :=
  match check_output e command with
  | Some output => PyStr.strip output
  | None => "Not available"
  end.

(** The value the two [RAM_GB] conversions of Linux and macOS store for a
    runner text. *)
Definition ram_value (text : string) (k : Z) : pyval :=
  match PyStr.int text with
  | Some n =>
      if PyNum.div1024_overflows n then PStr "Unknown"
      else PFloat (PyNum.round_gb n k)
  | None => PStr "Unknown"
  end.

(** [str(v)] of the value a JSON member loads back as. *)
Definition str_of_json (j : json_value) : string :=
  match j with
  | JString s => s
  | JNumber f => PyNum.float_repr f
  | JNull => "None"
  end.

(** The five fields every run starts with. *)
Definition common_fields (e : Env) : dict :=
  [("OS", PStr (platform_platform e));
   ("Hostname", PStr (platform_node e));
   ("OS_Version", PStr (platform_version e));
   ("Architecture", PStr (platform_machine e));
   ("Scan_Date", PStr (strftime_scan (now_collect e)))].


Definition is_dict (o : pyobj) : bool :=
  match o with
  | ODict _ => true
  | OVal _ => false
  end.

Definition ran (st : State) (command : string) : State :=
  mkState (specs st) (trace st ++ [Ran command])%list.

Definition script_dir (e : Env) : path :=
  match sys_meipass e with
  | Some meipass => Parent (Path meipass)
  | None => Path (script_file_dir e)
  end.

Definition reports_dir (e : Env) : path := Slash (script_dir e) "reports".

(** [d.update(items)], one assignment after the other. *)
Definition dict_update (d : dict) (items : dict) : dict :=
  fold_left (fun acc kv => dict_set (fst kv) (snd kv) acc) items d.

Definition linux_ram_cmd := "grep MemTotal /proc/meminfo | awk '{print $2}'".
Definition mac_ram_cmd := "sysctl hw.memsize | awk '{print $2}'".
Definition lspci_cmd := "lspci | grep -E 'vga|3d|2d'".
Definition nvidia_smi_cmd :=
  "nvidia-smi --query-gpu=gpu_name,memory.total,driver_version --format=csv,noheader".
Definition glxinfo_cmd := "glxinfo | grep 'OpenGL renderer'".
Definition mac_gpu_cmd := "system_profiler SPDisplaysDataType".
Definition wmic_gpu_cmd :=
  "wmic path win32_VideoController get name,adapterram,driverversion".

Definition linux_commands : list string :=
  ["lscpu | grep 'Model name' | cut -f 2 -d ':'";
   linux_ram_cmd;
   "df -h / | awk 'NR==2 {print $2}'";
   "sudo dmidecode -s system-serial-number";
   "sudo dmidecode -s system-product-name";
   "sudo dmidecode -s system-manufacturer"].

Definition linux_fields (e : Env) : dict :=
  [("CPU", PStr (runner_text e "lscpu | grep 'Model name' | cut -f 2 -d ':'"));
   ("RAM_GB", ram_value (runner_text e linux_ram_cmd) 2);
   ("Storage", PStr (runner_text e "df -h / | awk 'NR==2 {print $2}'"));
   ("Serial_Number", PStr (runner_text e "sudo dmidecode -s system-serial-number"));
   ("Model", PStr (runner_text e "sudo dmidecode -s system-product-name"));
   ("Manufacturer", PStr (runner_text e "sudo dmidecode -s system-manufacturer"))].

Definition mac_commands : list string :=
  ["system_profiler SPHardwareDataType | grep 'Serial Number' | awk '{print $4}'";
   "system_profiler SPHardwareDataType | grep 'Model Name' | cut -f 2 -d ':'";
   "sysctl -n machdep.cpu.brand_string";
   mac_ram_cmd;
   "diskutil info disk0 | grep 'Disk Size' | awk '{print $3,$4}'"].

Definition mac_fields (e : Env) : dict :=
  [("Serial_Number", PStr (runner_text e
      "system_profiler SPHardwareDataType | grep 'Serial Number' | awk '{print $4}'"));
   ("Model", PStr (runner_text e
      "system_profiler SPHardwareDataType | grep 'Model Name' | cut -f 2 -d ':'"));
   ("CPU", PStr (runner_text e "sysctl -n machdep.cpu.brand_string"));
   ("RAM_GB", ram_value (runner_text e mac_ram_cmd) 3);
   ("Storage", PStr (runner_text e
      "diskutil info disk0 | grep 'Disk Size' | awk '{print $3,$4}'"))].

Definition windows_fallback_commands : list string :=
  ["wmic bios get serialnumber";
   "wmic computersystem get model";
   "wmic cpu get name";
   "wmic computersystem get totalphysicalmemory";
   "wmic diskdrive get size,model"].

Definition windows_fallback_fields (e : Env) : dict :=
  [("Serial_Number", PStr (runner_text e "wmic bios get serialnumber"));
   ("Model", PStr (runner_text e "wmic computersystem get model"));
   ("CPU", PStr (runner_text e "wmic cpu get name"));
   ("RAM_GB", PStr (runner_text e "wmic computersystem get totalphysicalmemory"));
   ("Storage", PStr (runner_text e "wmic diskdrive get size,model"))].

(** The Linux probe chain: which commands run and which text is kept. *)
Definition linux_gpu_probes (e : Env) : list string :=
  lspci_cmd
  :: (if PyStr.is_empty (runner_text e lspci_cmd) then
        nvidia_smi_cmd
        :: (if PyStr.is_empty (runner_text e nvidia_smi_cmd)
            then [glxinfo_cmd] else [])
      else []).

Definition linux_gpu_text (e : Env) : string :=
  if PyStr.is_empty (runner_text e lspci_cmd) then
    if PyStr.is_empty (runner_text e nvidia_smi_cmd)
    then runner_text e glxinfo_cmd
    else runner_text e nvidia_smi_cmd
  else runner_text e lspci_cmd.

(** The three keys the merge writes for the [i]-th descriptor [{'Name': text}]. *)
Definition name_only_fields (i : nat) (text : string) : dict :=
  [(gpu_key i "_Name", PStr text);
   (gpu_key i "_Memory", PStr "Unknown");
   (gpu_key i "_Driver", PStr "Unknown")].

Definition after (st : State) (fields : dict) (commands : list string)
  : State :=
  mkState (dict_update (specs st) fields)
          (trace st ++ map Ran commands)%list.

Definition assigned (st : State) (k : string) (v : pyval) : State :=
  mkState (dict_set k v (specs st)) (trace st).

(** The video controllers the structured interface lists, when it can. *)
Definition wmi_video_controllers (e : Env)
  : option (list Win32_VideoController) :=
  match wmi e with
  | WmiConnected c => q_VideoController c
  | _ => None
  end.

(** The state after the five common assignments. *)
Definition common_state (e : Env) : State := mkState (common_fields e) [].

Definition collected (fields : dict) (commands : list string)
  : State * outcome dict :=
  (mkState fields (map Ran commands), Return fields).

(** Does the enumerator wrap one probe text (Linux, macOS, Windows without
    a usable management interface)? *)
Definition text_path (e : Env) : bool :=
  String.eqb (platform_system e) "Linux"
  || String.eqb (platform_system e) "Darwin"
  || (String.eqb (platform_system e) "Windows"
      && match wmi_video_controllers e with Some _ => false | None => true end).

(** The three keys the merge writes for the [i]-th structured descriptor. *)
Definition structured_fields (i : nat) (gpu : Win32_VideoController) : dict :=
  match gpu_descriptor gpu with
  | ODict d =>
      [(gpu_key i "_Name", dict_get_default "Name" (PStr "Unknown") d);
       (gpu_key i "_Memory", dict_get_default "Memory" (PStr "Unknown") d);
       (gpu_key i "_Driver", dict_get_default "Driver_Version" (PStr "Unknown") d)]
  | OVal _ => []
  end.

(** The keys each path assigns, in the order of the assignments. *)
Definition common_keys : list string :=
  ["OS"; "Hostname"; "OS_Version"; "Architecture"; "Scan_Date"].
Definition windows_structured_keys : list string :=
  ["Serial_Number"; "Manufacturer"; "Model"; "CPU"; "RAM_GB"; "Storage"].
Definition windows_fallback_keys : list string :=
  ["Serial_Number"; "Model"; "CPU"; "RAM_GB"; "Storage"].
Definition gpu_1_keys : list string :=
  ["GPU_1_Name"; "GPU_1_Memory"; "GPU_1_Driver"].


(** A machine seen through the management interface; the one disk drive
    reports the given size. *)
Definition sample_wmi (size : option Z) : wmi_connection :=
  mkWmi (Some [mkComputerSystem (Some "Acme") (Some "Box 9") (Some 17179869184%Z)])
        (Some [mkProcessor (Some "Acme CPU")])
        (Some [mkBIOS (Some "SN-1")])
        (Some [mkOperatingSystem (Some "Sample-OS")])
        (Some [mkDiskDrive (Some "Card Reader") size])
        (Some [mkVideoController (Some "Acme G200") (Some 4294967296%Z)
                                 (Some "1.2.3")]).

(** The text commands of the Windows fallback, all succeeding. *)
Definition wmic_shell : string -> option string :=
  shell [("wmic bios get serialnumber", "SerialNumber  
SN-1");
         ("wmic computersystem get model", "Model  
Box 9");
         ("wmic cpu get name", "Name  
Acme CPU");
         ("wmic computersystem get totalphysicalmemory", "TotalPhysicalMemory  
17179869184");
         ("wmic diskdrive get size,model", "Model        Size  
Card Reader  ");
         (wmic_gpu_cmd, "AdapterRAM  DriverVersion  Name  
4294967296  1.2.3  Acme G200")].

Definition not_available : pyval := PStr "Not available".
Definition unknown : pyval := PStr "Unknown".

(** The [RAM_GB] entry a run leaves in the record. *)
Definition ram_field (e : Env) : option pyval :=
  dict_get "RAM_GB" (specs (fst (run_collect e))).

(** ** Notions used for the whole collection pass *)

(** Keys of the GPU section start with ["GPU_"]. *)
Definition is_gpu_key (k : string) : bool := String.prefix "GPU_" k.

(** Keys assigned by some platform collector. *)
Definition is_platform_key (k : string) : bool :=
  existsb (String.eqb k) windows_structured_keys.

Definition is_collected_key (k : string) : bool :=
  is_platform_key k || is_gpu_key k.

(** [writes K m]: whatever [m] does and however it ends, its effect on the
    record is a sequence of assignments to keys accepted by [K]. *)
Definition writes {A} (K : string -> bool) (m : M A) : Prop :=
  forall st, exists items,
    Forall (fun kv => K (fst kv) = true) items
    /\ specs (fst (m st)) = dict_update (specs st) items.

(** [quiet m]: [m] runs no command and touches no file. *)
Definition quiet {A} (m : M A) : Prop :=
  forall st, trace (fst (m st)) = trace st.

(** A run of [n] zeros, to build long digit texts. *)
Fixpoint zeros (n : nat) : string :=
  match n with
  | O => EmptyString
  | S n' => String "0" (zeros n')
  end.


(** The texts the disk loop collects when every drive reports a size;
    [None] when some drive reports none. *)
Fixpoint disk_entries (drives : list Win32_DiskDrive)
  : option (list string) :=
  match drives with
  | [] => Some []
  | disk :: rest =>
      match disk_Size disk, disk_entries rest with
      | Some size, Some entries =>
          Some ((py_str (of_text (disk_Model disk)) ++ " ("
                 ++ PyNum.float_repr (PyNum.round_gb size 3) ++ " GB)")
                :: entries)
      | _, _ => None
      end
  end.

(** The six assignments of the structured Windows path, when each of its
    queries answers: the four first rows exist, the memory size and every
    drive size are there. *)
Definition structured_info_fields (c : wmi_connection) : option dict :=
  match q_ComputerSystem c, q_Processor c, q_BIOS c, q_OperatingSystem c with
  | Some (system :: _), Some (cpu :: _), Some (bios :: _), Some (_ :: _) =>
      match cs_TotalPhysicalMemory system, q_DiskDrive c with
      | Some ram, Some drives =>
          match disk_entries drives with
          | Some entries =>
              Some [("Serial_Number", of_text (bios_SerialNumber bios));
                    ("Manufacturer", of_text (cs_Manufacturer system));
                    ("Model", of_text (cs_Model system));
                    ("CPU", of_text (cpu_Name cpu));
                    ("RAM_GB", PFloat (PyNum.round_gb ram 3));
                    ("Storage", PStr (PyStr.join ", " entries))]
          | None => None
          end
      | _, _ => None
      end
  | _, _, _, _ => None
  end.

(** The assignments the merge loop makes for the [i]-th descriptor, and for
    a whole list from index [i] on. *)
Definition descriptor_fields (i : nat) (gpu : pyobj) : dict :=
  match gpu with
  | ODict d =>
      [(gpu_key i "_Name", dict_get_default "Name" (PStr "Unknown") d);
       (gpu_key i "_Memory", dict_get_default "Memory" (PStr "Unknown") d);
       (gpu_key i "_Driver",
        dict_get_default "Driver_Version" (PStr "Unknown") d)]
  | OVal v => [(gpu_key i "", PStr (py_str v))]
  end.

Fixpoint merged_fields (i : nat) (gpu_info : list pyobj) : dict :=
  match gpu_info with
  | [] => []
  | gpu :: rest => (descriptor_fields i gpu ++ merged_fields (S i) rest)%list
  end.

(** Texts made of decimal digits only. *)
Definition is_digit (c : ascii) : bool :=
  match PyStr.digit_val c with
  | Some _ => true
  | None => false
  end.

Fixpoint all_digits (s : string) : bool :=
  match s with
  | EmptyString => true
  | String c r => is_digit c && all_digits r
  end.

(** The four suffixes of GPU keys: empty, or starting with an underscore. *)
Definition key_suffix (s : string) : bool :=
  match s with
  | EmptyString => true
  | String c _ => negb (is_digit c)
  end.

(** What the Windows enumerator returns and which command it runs: the
    structured descriptors when the interface lists the video controllers,
    else the wrapped output of the text command. *)
Definition windows_gpu_descriptors (e : Env) : list pyobj :=
  match wmi_video_controllers e with
  | Some controllers => map gpu_descriptor controllers
  | None => [name_only (runner_text e wmic_gpu_cmd)]
  end.

Definition windows_gpu_commands (e : Env) : list string :=
  match wmi_video_controllers e with
  | Some _ => []
  | None => [wmic_gpu_cmd]
  end.

(** Does [get_windows_info] return: the interface is missing (fallback), or
    it is there and each query answers. *)
Definition windows_info_ok (e : Env) : bool :=
  match wmi e with
  | WmiMissing => true
  | WmiUnreachable => false
  | WmiConnected c =>
      match structured_info_fields c with
      | Some _ => true
      | None => false
      end
  end.

Definition run_succeeds (e : Env) : bool :=
  String.eqb (platform_system e) "Linux"
  || String.eqb (platform_system e) "Darwin"
  || (String.eqb (platform_system e) "Windows" && windows_info_ok e).

(** The three Linux probes, in the order of the source. *)
Definition probe_chain : list string :=
  [lspci_cmd; nvidia_smi_cmd; glxinfo_cmd].

(** The events of a state that touch the file system. *)
Definition is_file_event (ev : event) : bool :=
  match ev with
  | MadeDir _ | Wrote _ _ => true
  | Ran _ | Asked _ => false
  end.

Definition report_prompt : string :=
  "Enter a name for the report (without extension): ".

Definition with_writable (e : Env) (writable : path -> bool) : Env :=
  mkEnv (platform_system e) (platform_platform e) (platform_node e)
        (platform_version e) (platform_machine e) (now_collect e)
        (now_save e) (check_output e) (wmi e) (sys_meipass e)
        (script_file_dir e) (stdin_line e) writable.

(** A file system that refuses every file whose name ends in [.json]. *)
Definition json_refused (p : path) : bool :=
  match p with
  | Slash _ name =>
      negb (String.eqb (substring (String.length name - 5) 5 name) ".json")
  | _ => true
  end.

(** Month, day, hour, minute and second of a time take two digits. *)
Definition two_digit_fields (t : datetime) : bool :=
  (dt_month t <? 100) && (dt_day t <? 100) && (dt_hour t <? 100)
  && (dt_minute t <? 100) && (dt_second t <? 100).

Definition with_save_time (e : Env) (t : datetime) : Env :=
  mkEnv (platform_system e) (platform_platform e) (platform_node e)
        (platform_version e) (platform_machine e) (now_collect e)
        t (check_output e) (wmi e) (sys_meipass e)
        (script_file_dir e) (stdin_line e) (fs_writable e).

(** ** The program run as a script *)

(** What the script prints: literal texts, the two lines that format a
    path, and the line that formats the caught exception. *)
Inductive stdout_line :=
| Text (s : string)
| CsvSavedTo (p : path)
| JsonSavedTo (p : path)
| ErrorLine (x : exn).

Definition newline : string := String (ascii_of_nat 10) "".

Definition exit_prompt : string := newline ++ "Press Enter to exit...".

(** [print(f"{key}: {value}")] *)
Definition field_line (kv : string * pyval) : stdout_line :=
  Text (fst kv ++ ": " ++ py_str (snd kv)).

(** The prints of the [try] block after both methods returned. *)
Definition success_lines (files : path * path) (d : dict)
  : list stdout_line :=
  ([Text (newline ++ "System information collected successfully!");
    CsvSavedTo (fst files);
    JsonSavedTo (snd files);
    Text (newline ++ "Collected Information:")]
   ++ map field_line d)%list.

(** The line the final [input] reads.  Standard input holds [stdin_line]
    first and [second_line] after it; the report prompt has taken the
    first line exactly when [collect_info] returned. *)
Definition exit_line (e : Env) (second_line : option string)
  : option string :=
  match snd (collect_info e init) with
  | Return _ =>
      match stdin_line e with
      | Some _ => second_line
      | None => None
      end
  | Raise _ => stdin_line e
  end.

Record script_run := mkRun {
  run_state : State;
  run_stdout : list stdout_line;
  run_outcome : outcome unit
}.

(** The [if __name__ == "__main__"] block: [try] the two methods and the
    prints, [except Exception] print one line, [finally] ask for Enter. *)
Definition main (e : Env) (second_line : option string) : script_run :=
  let tried := (collect_info e ;;; save_results e) init in
  let stdout :=
    match snd tried with
    | Return files => success_lines files (specs (fst tried))
    | Raise x => [ErrorLine x]
    end in
  let st := fst (emit (Asked exit_prompt) (fst tried)) in
  mkRun st stdout
        (match exit_line e second_line with
         | Some _ => Return tt
         | None => Raise EOFError
         end).

(** * Properties *)

(** ** Trimming *)

Section Trimming.

Import PyStr.

Lemma lstrip_first (s : string) : no_space_at (first_char (lstrip s)) = true.
Proof.
  induction s as [|c r IH]; simpl; [reflexivity|].
  destruct (isspace c) eqn:E; [exact IH|].
  simpl. now rewrite E.
Qed.

Lemma rstrip_last (s : string) : no_space_at (last_char (rstrip s)) = true.
Proof.
  induction s as [|c r IH]; simpl; [reflexivity|].
  destruct (rstrip r) as [|c' r'] eqn:E.
  - destruct (isspace c) eqn:Ec; simpl; [reflexivity|now rewrite Ec].
  - exact IH.
Qed.

Lemma rstrip_first (s : string) :
  no_space_at (first_char s) = true ->
  no_space_at (first_char (rstrip s)) = true.
Proof.
  destruct s as [|c r]; simpl; [reflexivity|].
  intros H. destruct (rstrip r); [|exact H].
  destruct (isspace c) eqn:E; simpl; [reflexivity|now rewrite E].
Qed.

Lemma strip_trimmed (s : string) : trimmed (strip s) = true.
Proof.
  unfold trimmed, strip. apply andb_true_intro. split.
  - apply rstrip_first, lstrip_first.
  - apply rstrip_last.
Qed.

Lemma lstrip_split (s : string) :
  exists l, s = l ++ lstrip s /\ all_space l = true.
Proof.
  induction s as [|c r [l [Hs Hl]]]; simpl.
  - now exists "".
  - destruct (isspace c) eqn:E.
    + exists (String c l). simpl. rewrite E, Hl.
      split; [now rewrite <- Hs|reflexivity].
    + now exists "".
Qed.

Lemma rstrip_split (s : string) :
  exists r, s = rstrip s ++ r /\ all_space r = true.
Proof.
  induction s as [|c t [r [Hs Hr]]]; simpl.
  - now exists "".
  - destruct (rstrip t) as [|c' t'] eqn:E.
    + simpl in Hs. destruct (isspace c) eqn:Ec.
      * exists (String c r). simpl. rewrite Ec, Hr.
        split; [now rewrite <- Hs|reflexivity].
      * exists r. simpl. split; [now rewrite <- Hs|exact Hr].
    + exists r. split; [|exact Hr]. simpl. simpl in Hs. now rewrite <- Hs.
Qed.

Lemma strip_split (s : string) :
  exists l r, s = l ++ strip s ++ r /\ all_space l = true /\ all_space r = true.
Proof.
  destruct (lstrip_split s) as [l [Hs Hl]].
  destruct (rstrip_split (lstrip s)) as [r [Ht Hr]].
  exists l, r. unfold strip. now rewrite <- Ht.
Qed.

Lemma lstrip_all_space (s : string) : all_space s = true -> lstrip s = "".
Proof.
  induction s as [|c r IH]; simpl; [reflexivity|].
  intros H. apply andb_prop in H as [Hc Hr]. rewrite Hc. now apply IH.
Qed.

Lemma strip_all_space (s : string) : all_space s = true -> strip s = "".
Proof.
  intros H. unfold strip. now rewrite lstrip_all_space.
Qed.


Lemma last_char_app (a b : string) :
  b <> "" -> last_char (a ++ b) = last_char b.
Proof.
  intros Hb. induction a as [|c r IH]; simpl; [reflexivity|].
  rewrite IH. destruct (r ++ b) eqn:E; [|reflexivity].
  destruct r; simpl in E; congruence.
Qed.

End Trimming.

(** ** The built-ins on sample inputs *)

Example strip_blanks : PyStr.strip "  a b  " = "a b".
Proof. reflexivity. Qed.

Example int_meminfo : PyStr.int "16777216" = Some 16777216%Z.
Proof. reflexivity. Qed.

Example int_sentinel : PyStr.int "Not available" = None.
Proof. reflexivity. Qed.

Example int_underscore : PyStr.int " -1_000 " = Some (-1000)%Z.
Proof. reflexivity. Qed.

Example int_trailing_underscore : PyStr.int "1_" = None.
Proof. reflexivity. Qed.

Example int_at_digit_limit : PyStr.int (zeros 4299 ++ "1") = Some 1%Z.
Proof. vm_compute. reflexivity. Qed.

Example int_past_digit_limit : PyStr.int (zeros 4300 ++ "1") = None.
Proof. vm_compute. reflexivity. Qed.

Example int_no_break_space :
  PyStr.int ("5" ++ String (ascii_of_nat 160) "") = Some 5%Z.
Proof. reflexivity. Qed.

Example int_keeps_separator_char :
  PyStr.int (String (ascii_of_nat 28) ("5" ++ String (ascii_of_nat 160) ""))
  = None.
Proof. reflexivity. Qed.

Example ram_past_digit_limit : ram_value (zeros 4300 ++ "1") 2 = PStr "Unknown".
Proof. vm_compute. reflexivity. Qed.

Example linux_16_gb : py_str (ram_value "16777216" 2) = "16.0".
Proof. reflexivity. Qed.

Example mac_16_gb : py_str (ram_value "17179869184" 3) = "16.0".
Proof. reflexivity. Qed.

Example round_tie_to_even :
  PyNum.float_repr (PyNum.round_gb 131072 2) = "0.12".
Proof. reflexivity. Qed.

Example gpu_key_second : gpu_key 1 "_Name" = "GPU_2_Name".
Proof. reflexivity. Qed.

(** ** The command runner *)

Lemma get_command_output_eq (e : Env) (command : string) (st : State) :
  get_command_output e command st
  = (ran st command, Return (runner_text e command)).
Proof.
  unfold get_command_output, runner_text, bind, emit, ret, ran.
  now destruct (check_output e command).
Qed.

(** C9: the runner is total.  Whatever the command and the state, it
    returns a text and never raises; the text is the captured output with
    leading and trailing whitespace removed when the command succeeds, and
    exactly "Not available" when it fails.  The record is left untouched. *)
Theorem get_command_output_total (e : Env) (command : string) (st : State) :
  exists text,
    get_command_output e command st = (ran st command, Return text)
    /\ match check_output e command with
       | Some output =>
           text = PyStr.strip output
           /\ PyStr.trimmed text = true
           /\ exists l r, output = l ++ text ++ r
                          /\ PyStr.all_space l = true
                          /\ PyStr.all_space r = true
       | None => text = "Not available"
       end.
Proof.
  exists (runner_text e command). split.
  - apply get_command_output_eq.
  - unfold runner_text. destruct (check_output e command) as [output|].
    + split; [reflexivity|]. split; [apply strip_trimmed|].
      apply strip_split.
    + reflexivity.
Qed.

(** ** The report writer *)

Lemma save_results_eq (e : Env) (st : State) (response : string) :
  stdin_line e = Some response ->
  (forall p, fs_writable e p = true) ->
  let base := report_base response (strftime_stamp (now_save e)) in
  let csv_file := Slash (reports_dir e) (base ++ ".csv") in
  let json_file := Slash (reports_dir e) (base ++ ".json") in
  save_results e st
  = (mkState (specs st)
       (trace st
        ++ [Asked "Enter a name for the report (without extension): ";
            MadeDir (reports_dir e);
            Wrote csv_file (CsvFile (csv_rows (specs st)));
            Wrote json_file (JsonFile (json_members (specs st)))])%list,
     Return (csv_file, json_file)).
Proof.
  intros Hin Hw. cbv zeta.
  unfold save_results, bind, or_raise, mkdir, write_file.
  rewrite Hin. fold (script_dir e). fold (reports_dir e).
  unfold emit, ret. cbn [specs trace].
  repeat (rewrite Hw; cbn [specs trace]).
  rewrite <- !app_assoc. reflexivity.
Qed.






Lemma json_members_keys (d : dict) : map fst (json_members d) = dict_keys d.
Proof. unfold json_members, dict_keys. now rewrite map_map. Qed.

Lemma csv_rows_of_json (d : dict) :
  csv_rows d
  = ["Specification"; "Value"]
    :: map (fun m => [fst m; str_of_json (snd m)]) (json_members d).
Proof.
  unfold csv_rows, json_members. rewrite map_map. f_equal.
  apply map_ext. intros [k v]. simpl. now destruct v.
Qed.

(** C8: whatever the record holds, the two reports agree.  The JSON object
    and the CSV rows below the header list the record's keys in insertion
    order, and every JSON member [(k, j)] has the CSV row [k, str(j)]:
    texts as they are, numbers as their decimal text. *)
Theorem reports_agree (e : Env) (st : State) (response : string) :
  stdin_line e = Some response ->
  (forall p, fs_writable e p = true) ->
  exists csv_file json_file rows members,
    save_results e st
    = (mkState (specs st)
         (trace st
          ++ [Asked "Enter a name for the report (without extension): ";
              MadeDir (reports_dir e);
              Wrote csv_file (CsvFile rows);
              Wrote json_file (JsonFile members)])%list,
       Return (csv_file, json_file))
    /\ map fst members = dict_keys (specs st)
    /\ rows = ["Specification"; "Value"]
              :: map (fun m => [fst m; str_of_json (snd m)]) members
    /\ (forall k j, In (k, j) members -> In [k; str_of_json j] rows).
Proof.
  intros Hin Hw.
  do 2 eexists. exists (csv_rows (specs st)), (json_members (specs st)).
  split; [apply (save_results_eq e st response Hin Hw)|].
  split; [apply json_members_keys|].
  split; [apply csv_rows_of_json|].
  intros k j Hm. rewrite csv_rows_of_json. right.
  apply (in_map (fun m => [fst m; str_of_json (snd m)]) _ (k, j) Hm).
Qed.

Lemma reports_agree_witness :
  let e := with_stdin (sample_env "Linux" all_fail WmiMissing) (Some "lab7") in
  let st := mkState [("Hostname", PStr "host");
                     ("RAM_GB", PFloat (PyNum.round_gb 16777216 2));
                     ("Serial_Number", PNone)] [] in
  exists csv_file json_file rows members,
    save_results e st
    = (mkState (specs st)
         (trace st
          ++ [Asked "Enter a name for the report (without extension): ";
              MadeDir (reports_dir e);
              Wrote csv_file (CsvFile rows);
              Wrote json_file (JsonFile members)])%list,
       Return (csv_file, json_file))
    /\ map fst members = dict_keys (specs st)
    /\ rows = ["Specification"; "Value"]
              :: map (fun m => [fst m; str_of_json (snd m)]) members
    /\ (forall k j, In (k, j) members -> In [k; str_of_json j] rows).
Proof.
  cbv zeta. apply (reports_agree _ _ "lab7"); reflexivity.
Defined.

(** ** Closed forms of the collection pass *)

Lemma ram_try_eq (text : string) (k : Z) (st : State) :
  try_except (gb <- int_to_gb text k ;; set_spec "RAM_GB" (PFloat gb))
             (set_spec "RAM_GB" (PStr "Unknown")) st
  = set_spec "RAM_GB" (ram_value text k) st.
Proof.
  unfold try_except, int_to_gb, ram_value, bind, or_raise.
  destruct (PyStr.int text) as [n|]; cbn; [|reflexivity].
  now destruct (PyNum.div1024_overflows n).
Qed.

Lemma bind_run {A} (e : Env) (command : string) (k : string -> M A)
  (st : State) :
  bind (get_command_output e command) k st
  = k (runner_text e command) (ran st command).
Proof. unfold bind. now rewrite get_command_output_eq. Qed.

Lemma bind_set {A} (key : string) (v : pyval) (k : unit -> M A) (st : State) :
  bind (set_spec key v) k st = k tt (assigned st key v).
Proof. reflexivity. Qed.

Lemma bind_ram_try {A} (text : string) (n : Z) (k : unit -> M A) (st : State) :
  bind (try_except (gb <- int_to_gb text n ;; set_spec "RAM_GB" (PFloat gb))
                   (set_spec "RAM_GB" (PStr "Unknown"))) k st
  = k tt (assigned st "RAM_GB" (ram_value text n)).
Proof. unfold bind at 1. now rewrite ram_try_eq. Qed.

Ltac run_commands :=
  repeat (rewrite bind_run || rewrite bind_ram_try || rewrite bind_set
          || rewrite get_command_output_eq
          || cbv beta);
  unfold set_spec, assigned, ran; cbn [specs trace].

Ltac finish_state :=
  unfold after, dict_update; cbn [fold_left fst snd map specs trace];
  rewrite <- ?app_assoc; reflexivity.

Lemma get_linux_info_eq (e : Env) (st : State) :
  get_linux_info e st = (after st (linux_fields e) linux_commands, Return tt).
Proof. unfold get_linux_info. run_commands. finish_state. Qed.

Lemma get_mac_info_eq (e : Env) (st : State) :
  get_mac_info e st = (after st (mac_fields e) mac_commands, Return tt).
Proof. unfold get_mac_info. run_commands. finish_state. Qed.

Lemma get_windows_info_fallback_eq (e : Env) (st : State) :
  wmi e = WmiMissing ->
  get_windows_info e st
  = (after st (windows_fallback_fields e) windows_fallback_commands, Return tt).
Proof.
  intros Hw. unfold get_windows_info, try_except_import, wmi_connect.
  rewrite Hw. unfold bind at 1. unfold raise at 1.
  run_commands. finish_state.
Qed.

Lemma bind_return {A B} (m : M A) (k : A -> M B) (st st' : State) (a : A) :
  m st = (st', Return a) -> bind m k st = k a st'.
Proof. intros H. unfold bind. now rewrite H. Qed.

Lemma bind_raise {A B} (m : M A) (k : A -> M B) (st st' : State) (x : exn) :
  m st = (st', Raise x) -> bind m k st = (st', Raise x).
Proof. intros H. unfold bind. now rewrite H. Qed.

Lemma get_gpu_info_linux_eq (e : Env) (st : State) :
  platform_system e = "Linux" ->
  get_gpu_info e st
  = (after st [] (linux_gpu_probes e),
     Return (Some [name_only (linux_gpu_text e)])).
Proof.
  intros Hs. unfold get_gpu_info, system. rewrite Hs.
  cbn [String.eqb Ascii.eqb Bool.eqb]. cbv iota.
  rewrite bind_run. cbv beta.
  unfold linux_gpu_probes, linux_gpu_text.
  fold lspci_cmd nvidia_smi_cmd glxinfo_cmd.
  destruct (PyStr.is_empty (runner_text e lspci_cmd)).
  - unfold bind at 1. rewrite bind_run.
    destruct (PyStr.is_empty (runner_text e nvidia_smi_cmd)).
    + rewrite get_command_output_eq. unfold ret, ran, after. cbn.
      now rewrite <- !app_assoc.
    + unfold ret, ran, after. cbn. now rewrite <- !app_assoc.
  - reflexivity.
Qed.

Lemma get_gpu_info_mac_eq (e : Env) (st : State) :
  platform_system e = "Darwin" ->
  get_gpu_info e st
  = (after st [] [mac_gpu_cmd],
     Return (Some [name_only (runner_text e mac_gpu_cmd)])).
Proof.
  intros Hs. unfold get_gpu_info, system. rewrite Hs.
  cbn [String.eqb Ascii.eqb Bool.eqb]. cbv iota.
  rewrite bind_run. reflexivity.
Qed.

Lemma get_gpu_info_windows_fallback_eq (e : Env) (st : State) :
  platform_system e = "Windows" ->
  wmi_video_controllers e = None ->
  get_gpu_info e st
  = (after st [] [wmic_gpu_cmd],
     Return (Some [name_only (runner_text e wmic_gpu_cmd)])).
Proof.
  intros Hs Hv. unfold get_gpu_info, system. rewrite Hs.
  cbn [String.eqb Ascii.eqb Bool.eqb]. cbv iota.
  unfold wmi_video_controllers in Hv.
  unfold try_except, wmi_connect.
  destruct (wmi e) as [| |c].
  - unfold bind at 1. unfold raise. rewrite bind_run. reflexivity.
  - unfold bind at 1. unfold raise. rewrite bind_run. reflexivity.
  - unfold bind at 1. unfold ret at 1. rewrite Hv.
    unfold bind at 1. unfold or_raise, raise. rewrite bind_run. reflexivity.
Qed.

Lemma get_gpu_info_windows_structured_eq (e : Env) (st : State)
  (controllers : list Win32_VideoController) :
  platform_system e = "Windows" ->
  wmi_video_controllers e = Some controllers ->
  get_gpu_info e st = (st, Return (Some (map gpu_descriptor controllers))).
Proof.
  intros Hs Hv. unfold get_gpu_info, system. rewrite Hs.
  cbn [String.eqb Ascii.eqb Bool.eqb]. cbv iota.
  unfold wmi_video_controllers in Hv.
  unfold try_except, wmi_connect.
  destruct (wmi e) as [| |c]; [discriminate|discriminate|].
  unfold bind at 1. unfold ret at 1. rewrite Hv. reflexivity.
Qed.

Lemma get_gpu_info_unrecognized_eq (e : Env) (st : State) :
  String.eqb (platform_system e) "Windows" = false ->
  String.eqb (platform_system e) "Linux" = false ->
  String.eqb (platform_system e) "Darwin" = false ->
  get_gpu_info e st = (st, Return None).
Proof.
  intros Hw Hl Hd. unfold get_gpu_info, system. now rewrite Hw, Hl, Hd.
Qed.

Lemma merge_name_only_eq (i : nat) (text : string) (st : State) :
  merge_gpu i (name_only text) st
  = (after st (name_only_fields i text) [], Return tt).
Proof.
  unfold merge_gpu, name_only. rewrite !bind_set.
  unfold after, assigned, set_spec, name_only_fields, dict_update.
  cbn. now rewrite app_nil_r.
Qed.

Lemma bind_ret {A B} (a : A) (k : A -> M B) (st : State) :
  bind (ret a) k st = k a st.
Proof. reflexivity. Qed.

Lemma merge_single_eq (text : string) (st : State) :
  merge_gpus 0 [name_only text] st
  = (after st (name_only_fields 0 text) [], Return tt).
Proof.
  unfold merge_gpus.
  rewrite (bind_return _ _ _ _ _ (merge_name_only_eq 0 text st)).
  reflexivity.
Qed.

(** The end of [collect_info] once the enumerator has returned the single
    descriptor [{'Name': text}]. *)
Lemma collect_tail_eq (text : string) (st : State) :
  (descriptors <- or_raise TypeError (Some [name_only text]) ;;
   merge_gpus 0 descriptors ;;;
   (fun st => (st, Return (specs st)))) st
  = (after st (name_only_fields 0 text) [],
     Return (dict_update (specs st) (name_only_fields 0 text))).
Proof.
  unfold or_raise. rewrite bind_ret.
  rewrite (bind_return _ _ _ _ _ (merge_single_eq text st)).
  reflexivity.
Qed.

Lemma collect_info_linux_eq (e : Env) :
  platform_system e = "Linux" ->
  run_collect e
  = collected (common_fields e ++ linux_fields e
               ++ name_only_fields 0 (linux_gpu_text e))%list
              (linux_commands ++ linux_gpu_probes e)%list.
Proof.
  intros Hs. unfold run_collect, collect_info, system.
  rewrite !bind_set. rewrite Hs. cbn [String.eqb Ascii.eqb Bool.eqb]. cbv iota.
  rewrite (bind_return _ _ _ _ _ (get_linux_info_eq e _)).
  rewrite (bind_return _ _ _ _ _ (get_gpu_info_linux_eq e _ Hs)).
  rewrite collect_tail_eq. unfold collected, after. cbn [specs trace].
  rewrite map_app, !app_nil_r. reflexivity.
Qed.

Lemma collect_info_mac_eq (e : Env) :
  platform_system e = "Darwin" ->
  run_collect e
  = collected (common_fields e ++ mac_fields e
               ++ name_only_fields 0 (runner_text e mac_gpu_cmd))%list
              (mac_commands ++ [mac_gpu_cmd])%list.
Proof.
  intros Hs. unfold run_collect, collect_info, system.
  rewrite !bind_set. rewrite Hs. cbn [String.eqb Ascii.eqb Bool.eqb]. cbv iota.
  rewrite (bind_return _ _ _ _ _ (get_mac_info_eq e _)).
  rewrite (bind_return _ _ _ _ _ (get_gpu_info_mac_eq e _ Hs)).
  rewrite collect_tail_eq. reflexivity.
Qed.

Lemma collect_info_windows_fallback_eq (e : Env) :
  platform_system e = "Windows" ->
  wmi e = WmiMissing ->
  run_collect e
  = collected (common_fields e ++ windows_fallback_fields e
               ++ name_only_fields 0 (runner_text e wmic_gpu_cmd))%list
              (windows_fallback_commands ++ [wmic_gpu_cmd])%list.
Proof.
  intros Hs Hw. unfold run_collect, collect_info, system.
  rewrite !bind_set. rewrite Hs. cbn [String.eqb Ascii.eqb Bool.eqb]. cbv iota.
  rewrite (bind_return _ _ _ _ _ (get_windows_info_fallback_eq e _ Hw)).
  assert (Hv : wmi_video_controllers e = None)
    by (unfold wmi_video_controllers; now rewrite Hw).
  rewrite (bind_return _ _ _ _ _ (get_gpu_info_windows_fallback_eq e _ Hs Hv)).
  rewrite collect_tail_eq. reflexivity.
Qed.

Lemma collect_info_unrecognized_eq (e : Env) :
  String.eqb (platform_system e) "Linux" = false ->
  String.eqb (platform_system e) "Darwin" = false ->
  String.eqb (platform_system e) "Windows" = false ->
  run_collect e = (common_state e, Raise TypeError).
Proof.
  intros Hl Hd Hw. unfold run_collect, collect_info, system.
  rewrite !bind_set. rewrite Hl, Hd, Hw. rewrite bind_ret.
  rewrite (bind_return _ _ _ _ _
             (get_gpu_info_unrecognized_eq e _ Hw Hl Hd)).
  reflexivity.
Qed.

(** ** The record as an ordered mapping *)

Lemma dict_get_set_same (k : string) (v : pyval) (d : dict) :
  dict_get k (dict_set k v d) = Some v.
Proof.
  induction d as [|[k' v'] r IH]; simpl.
  - now rewrite String.eqb_refl.
  - destruct (String.eqb k' k) eqn:E; simpl; rewrite E; [reflexivity|exact IH].
Qed.

Lemma dict_get_set_other (k k' : string) (v : pyval) (d : dict) :
  String.eqb k' k = false ->
  dict_get k (dict_set k' v d) = dict_get k d.
Proof.
  intros Hne. induction d as [|[k0 v0] r IH]; simpl.
  - now rewrite Hne.
  - destruct (String.eqb k0 k') eqn:E; simpl.
    + apply String.eqb_eq in E. subst k0. now rewrite Hne.
    + now rewrite IH.
Qed.

(** Assigning keeps the keys already there in their places and adds a new
    key at the end. *)
Lemma dict_keys_set (k : string) (v : pyval) (d : dict) :
  dict_keys (dict_set k v d)
  = if existsb (String.eqb k) (dict_keys d) then dict_keys d
    else (dict_keys d ++ [k])%list.
Proof.
  unfold dict_keys. induction d as [|[k' v'] r IH]; simpl; [reflexivity|].
  rewrite (String.eqb_sym k k').
  destruct (String.eqb k' k) eqn:E; simpl; [reflexivity|].
  rewrite IH. now destruct (existsb (String.eqb k) (map fst r)).
Qed.

Lemma append_inj_l (a b c : string) : a ++ b = a ++ c -> b = c.
Proof.
  induction a as [|x a IH]; simpl; [trivial|].
  intros H. injection H as H. now apply IH.
Qed.

Lemma gpu_key_suffix (i : nat) (s t : string) :
  String.eqb s t = false -> String.eqb (gpu_key i s) (gpu_key i t) = false.
Proof.
  intros Hne. apply String.eqb_neq. intros H. unfold gpu_key in H.
  apply append_inj_l in H. apply append_inj_l in H.
  apply String.eqb_neq in Hne. contradiction.
Qed.


Lemma ram_value_cases (text : string) (k : Z) :
  (exists f, ram_value text k = PFloat f) \/ ram_value text k = PStr "Unknown".
Proof.
  unfold ram_value. destruct (PyStr.int text) as [n|]; [|now right].
  destruct (PyNum.div1024_overflows n); [now right|left; eauto].
Qed.

Lemma runner_text_fail (e : Env) :
  (forall command, check_output e command = None) ->
  forall command, runner_text e command = "Not available".
Proof. intros H command. unfold runner_text. now rewrite H. Qed.

(** ** Unrecognized platforms *)

(** C1 (the code departs from it): on a platform that is none of Linux,
    Darwin, Windows the record does end with exactly the five common
    fields, but [get_gpu_info] falls off its end, returns [None], and the
    merge loop's [enumerate(None)] raises: [collect_info] does not return
    normally.  Evaluated at the platform identifier "FreeBSD". *)
Theorem unrecognized_platform_raises :
  let e := sample_env "FreeBSD" all_fail WmiMissing in
  get_gpu_info e (common_state e) = (common_state e, Return None)
  /\ dict_keys (specs (fst (run_collect e))) = common_keys
  /\ trace (fst (run_collect e)) = []
  /\ snd (run_collect e) = Raise TypeError.
Proof.
  cbv zeta.
  rewrite (collect_info_unrecognized_eq
             (sample_env "FreeBSD" all_fail WmiMissing))
    by reflexivity.
  repeat split.
Qed.

(** ** The merge of GPU descriptors *)

Lemma merge_structured_eq (i : nat) (gpu : Win32_VideoController)
  (st : State) :
  merge_gpu i (gpu_descriptor gpu) st
  = (after st (structured_fields i gpu) [], Return tt).
Proof.
  unfold structured_fields, gpu_descriptor, merge_gpu. rewrite !bind_set.
  unfold after, assigned, set_spec, dict_update.
  cbn [fold_left fst snd specs trace map]. now rewrite app_nil_r.
Qed.

Lemma name_only_leaves_plain_key (i : nat) (text : string) (d : dict) :
  dict_get (gpu_key i "") (dict_update d (name_only_fields i text))
  = dict_get (gpu_key i "") d.
Proof.
  unfold dict_update, name_only_fields. cbn [fold_left fst snd].
  rewrite !dict_get_set_other; [reflexivity| | |];
    now apply gpu_key_suffix.
Qed.

Lemma enumerated_are_dicts (e : Env) (st st' : State) (l : list pyobj) :
  get_gpu_info e st = (st', Return (Some l)) -> forallb is_dict l = true.
Proof.
  destruct (String.eqb (platform_system e) "Windows") eqn:Hw.
  - apply String.eqb_eq in Hw.
    destruct (wmi_video_controllers e) as [controllers|] eqn:Hv.
    + rewrite (get_gpu_info_windows_structured_eq e st controllers Hw Hv).
      intros H. injection H as _ H. subst l.
      clear. induction controllers; [reflexivity|exact IHcontrollers].
    + rewrite (get_gpu_info_windows_fallback_eq e st Hw Hv).
      intros H. injection H as _ H. now subst l.
  - destruct (String.eqb (platform_system e) "Linux") eqn:Hl.
    + apply String.eqb_eq in Hl. rewrite (get_gpu_info_linux_eq e st Hl).
      intros H. injection H as _ H. now subst l.
    + destruct (String.eqb (platform_system e) "Darwin") eqn:Hd.
      * apply String.eqb_eq in Hd. rewrite (get_gpu_info_mac_eq e st Hd).
        intros H. injection H as _ H. now subst l.
      * rewrite (get_gpu_info_unrecognized_eq e st Hw Hl Hd). discriminate.
Qed.

Lemma text_path_single (e : Env) (st : State) :
  text_path e = true ->
  exists text commands,
    get_gpu_info e st
    = (after st [] commands, Return (Some [name_only text])).
Proof.
  unfold text_path. intros H.
  destruct (String.eqb (platform_system e) "Linux") eqn:Hl.
  { apply String.eqb_eq in Hl. do 2 eexists.
    apply (get_gpu_info_linux_eq e st Hl). }
  destruct (String.eqb (platform_system e) "Darwin") eqn:Hd.
  { apply String.eqb_eq in Hd. do 2 eexists.
    apply (get_gpu_info_mac_eq e st Hd). }
  destruct (String.eqb (platform_system e) "Windows") eqn:Hw;
    [|discriminate].
  apply String.eqb_eq in Hw.
  destruct (wmi_video_controllers e) eqn:Hv; [discriminate|].
  do 2 eexists. apply (get_gpu_info_windows_fallback_eq e st Hw Hv).
Qed.

(** C2 (as amended): every descriptor the enumerator returns is a dict.  On
    the text paths (Linux, macOS, Windows without a usable management
    interface) it is the single dict [{'Name': text}], and the merge writes
    for it the three keys GPU_<n>_Name = text, GPU_<n>_Memory = "Unknown",
    GPU_<n>_Driver = "Unknown", and no key GPU_<n>.  A structured
    descriptor gets the same three keys from its name, memory and driver.
    The single key GPU_<n> is written only for a descriptor that is not a
    dict. *)
Theorem gpu_descriptors_merge_to_three_keys (e : Env) (st : State) :
  (forall st' l,
      get_gpu_info e st = (st', Return (Some l)) -> forallb is_dict l = true)
  /\ (text_path e = true ->
      exists text commands,
        get_gpu_info e st
        = (after st [] commands, Return (Some [name_only text])))
  /\ (forall i text st2,
        merge_gpu i (name_only text) st2
        = (after st2 [(gpu_key i "_Name", PStr text);
                      (gpu_key i "_Memory", PStr "Unknown");
                      (gpu_key i "_Driver", PStr "Unknown")] [], Return tt)
        /\ dict_get (gpu_key i "")
                    (specs (fst (merge_gpu i (name_only text) st2)))
           = dict_get (gpu_key i "") (specs st2))
  /\ (forall i gpu st2,
        merge_gpu i (gpu_descriptor gpu) st2
        = (after st2 [(gpu_key i "_Name", of_text (gpu_Name gpu));
                      (gpu_key i "_Memory",
                       dict_get_default "Memory" (PStr "Unknown")
                         (match gpu_descriptor gpu with
                          | ODict d => d
                          | OVal _ => []
                          end));
                      (gpu_key i "_Driver", of_text (gpu_DriverVersion gpu))]
                 [], Return tt))
  /\ (forall i v st2,
        merge_gpu i (OVal v) st2
        = (after st2 [(gpu_key i "", PStr (py_str v))] [], Return tt)).
Proof.
  split; [intros st' l; apply enumerated_are_dicts|].
  split; [apply text_path_single|].
  split; [|split].
  - intros i text st2. split; [apply merge_name_only_eq|].
    rewrite merge_name_only_eq. apply name_only_leaves_plain_key.
  - intros i gpu st2. apply merge_structured_eq.
  - intros i v st2. unfold merge_gpu, after, set_spec, dict_update.
    cbn [fold_left fst snd specs trace map]. now rewrite app_nil_r.
Qed.

(** C2 as stated fails: on Linux the probe text is wrapped in a dict, so
    the record gets GPU_1_Name, GPU_1_Memory, GPU_1_Driver and no GPU_1. *)
Lemma linux_probe_text_gets_three_keys :
  let e := sample_env "Linux"
             (shell [(lspci_cmd, "01:00.0 VGA compatible controller: Acme G200")])
             WmiMissing in
  let d := specs (fst (run_collect e)) in
  snd (get_gpu_info e init)
     = Return (Some [name_only "01:00.0 VGA compatible controller: Acme G200"])
  /\ dict_get "GPU_1" d = None
  /\ dict_get "GPU_1_Name" d
     = Some (PStr "01:00.0 VGA compatible controller: Acme G200")
  /\ dict_get "GPU_1_Memory" d = Some (PStr "Unknown")
  /\ dict_get "GPU_1_Driver" d = Some (PStr "Unknown").
Proof. cbv zeta. repeat split. Qed.

(** ** Sentinels *)

(** C3 (as amended): when the runner fails for every invocation, on Linux
    and macOS every command-filled field and GPU_1_Name equal
    "Not available" while RAM_GB, GPU_1_Memory and GPU_1_Driver equal
    "Unknown"; on the Windows text-command fallback RAM_GB is stored
    without conversion and equals "Not available" like the other
    command-filled fields. *)
Theorem failing_runner_sentinels (e : Env) :
  (forall command, check_output e command = None) ->
  (platform_system e = "Linux" ->
   run_collect e
   = collected (common_fields e
                ++ [("CPU", not_available); ("RAM_GB", unknown);
                    ("Storage", not_available);
                    ("Serial_Number", not_available);
                    ("Model", not_available);
                    ("Manufacturer", not_available);
                    ("GPU_1_Name", not_available);
                    ("GPU_1_Memory", unknown);
                    ("GPU_1_Driver", unknown)])%list
               (linux_commands ++ [lspci_cmd])%list)
  /\ (platform_system e = "Darwin" ->
      run_collect e
      = collected (common_fields e
                   ++ [("Serial_Number", not_available);
                       ("Model", not_available);
                       ("CPU", not_available); ("RAM_GB", unknown);
                       ("Storage", not_available);
                       ("GPU_1_Name", not_available);
                       ("GPU_1_Memory", unknown);
                       ("GPU_1_Driver", unknown)])%list
                  (mac_commands ++ [mac_gpu_cmd])%list)
  /\ (platform_system e = "Windows" -> wmi e = WmiMissing ->
      run_collect e
      = collected (common_fields e
                   ++ [("Serial_Number", not_available);
                       ("Model", not_available);
                       ("CPU", not_available);
                       ("RAM_GB", not_available);
                       ("Storage", not_available);
                       ("GPU_1_Name", not_available);
                       ("GPU_1_Memory", unknown);
                       ("GPU_1_Driver", unknown)])%list
                  (windows_fallback_commands ++ [wmic_gpu_cmd])%list).
Proof.
  intros Hfail. pose proof (runner_text_fail e Hfail) as Hna.
  split; [|split].
  - intros Hs. rewrite (collect_info_linux_eq e Hs).
    unfold linux_fields, linux_gpu_text, linux_gpu_probes.
    rewrite !Hna. reflexivity.
  - intros Hs. rewrite (collect_info_mac_eq e Hs).
    unfold mac_fields. rewrite !Hna. reflexivity.
  - intros Hs Hw. rewrite (collect_info_windows_fallback_eq e Hs Hw).
    unfold windows_fallback_fields. rewrite !Hna. reflexivity.
Qed.

Lemma failing_runner_sentinels_witness :
  let e := sample_env "Linux" all_fail WmiMissing in
  (forall command, check_output e command = None)
  /\ dict_get "RAM_GB" (specs (fst (run_collect e))) = Some unknown
  /\ dict_get "CPU" (specs (fst (run_collect e))) = Some not_available.
Proof.
  cbv zeta. split; [reflexivity|].
  destruct (failing_runner_sentinels (sample_env "Linux" all_fail WmiMissing))
    as [Hlinux _]; [reflexivity|].
  rewrite (Hlinux eq_refl). split; reflexivity.
Defined.

(** C3 as stated fails: on the Windows text-command fallback with a runner
    that always fails, RAM_GB is "Not available", not "Unknown"; and the
    textual GPU_1_Driver is "Unknown", not "Not available". *)
Lemma windows_fallback_ram_not_unknown :
  let e := sample_env "Windows" all_fail WmiMissing in
  (forall command, check_output e command = None)
  /\ (exists d, snd (run_collect e) = Return d)
  /\ dict_get "RAM_GB" (specs (fst (run_collect e))) = Some not_available
  /\ dict_get "RAM_GB" (specs (fst (run_collect e))) <> Some unknown
  /\ dict_get "GPU_1_Driver" (specs (fst (run_collect e))) = Some unknown.
Proof.
  cbv zeta. split; [reflexivity|]. split; [eexists; reflexivity|].
  split; [reflexivity|]. split; [discriminate|reflexivity].
Qed.

Lemma ram_field_linux (e : Env) :
  platform_system e = "Linux" ->
  ram_field e = Some (ram_value (runner_text e linux_ram_cmd) 2).
Proof.
  intros Hs. unfold ram_field. now rewrite (collect_info_linux_eq e Hs).
Qed.

Lemma ram_field_mac (e : Env) :
  platform_system e = "Darwin" ->
  ram_field e = Some (ram_value (runner_text e mac_ram_cmd) 3).
Proof.
  intros Hs. unfold ram_field. now rewrite (collect_info_mac_eq e Hs).
Qed.

Lemma ram_value_sentinel (k : Z) : ram_value "Not available" k = unknown.
Proof. reflexivity. Qed.

(** C4 (as amended): for RAM_GB on Linux and macOS both failure causes end
    in the same sentinel.  The field is always present; it holds "Unknown"
    when the command fails, "Unknown" when the command succeeds with output
    that is no integer, and otherwise a number or "Unknown"; it never holds
    "Not available". *)
Theorem ram_failures_share_unknown (e : Env) (command : string) :
  (platform_system e = "Linux" /\ command = linux_ram_cmd)
  \/ (platform_system e = "Darwin" /\ command = mac_ram_cmd) ->
  exists v,
    ram_field e = Some v
    /\ v <> not_available
    /\ (check_output e command = None -> v = unknown)
    /\ (forall output,
          check_output e command = Some output ->
          PyStr.int (PyStr.strip output) = None -> v = unknown)
    /\ ((exists f, v = PFloat f) \/ v = unknown).
Proof.
  intros H.
  assert (Hk : exists k,
             ram_field e = Some (ram_value (runner_text e command) k)).
  { destruct H as [[Hs ->]|[Hs ->]].
    - exists 2%Z. now apply ram_field_linux.
    - exists 3%Z. now apply ram_field_mac. }
  destruct Hk as [k Hk]. exists (ram_value (runner_text e command) k).
  split; [exact Hk|].
  split; [|split; [|split]].
  - destruct (ram_value_cases (runner_text e command) k) as [[f Hf]|Hu];
      [rewrite Hf|rewrite Hu]; discriminate.
  - intros Hnone. unfold runner_text. rewrite Hnone. apply ram_value_sentinel.
  - intros output Hsome Hint. unfold runner_text. rewrite Hsome.
    unfold ram_value. now rewrite Hint.
  - apply ram_value_cases.
Qed.

Lemma ram_failures_share_unknown_witness :
  let e := sample_env "Linux" all_fail WmiMissing in
  exists v,
    ram_field e = Some v
    /\ v <> not_available
    /\ (check_output e linux_ram_cmd = None -> v = unknown)
    /\ (forall output,
          check_output e linux_ram_cmd = Some output ->
          PyStr.int (PyStr.strip output) = None -> v = unknown)
    /\ ((exists f, v = PFloat f) \/ v = unknown).
Proof.
  cbv zeta. apply ram_failures_share_unknown. left. split; reflexivity.
Defined.

(** C4 as stated fails: on Linux a failing memory command and a memory
    command that prints no number both leave RAM_GB = "Unknown". *)
Lemma ram_failure_causes_coincide :
  let failed := sample_env "Linux" all_fail WmiMissing in
  let garbled := sample_env "Linux" (shell [(linux_ram_cmd, "MemTotal:")])
                            WmiMissing in
  check_output failed linux_ram_cmd = None
  /\ check_output garbled linux_ram_cmd = Some "MemTotal:"
  /\ ram_field failed = Some unknown
  /\ ram_field garbled = Some unknown
  /\ ram_field failed <> Some not_available.
Proof. cbv zeta. repeat split. discriminate. Qed.

(** ** The Linux probe chain *)

Lemma all_space_app (a b : string) :
  PyStr.all_space (a ++ b) = PyStr.all_space a && PyStr.all_space b.
Proof.
  induction a as [|c a IH]; simpl; [reflexivity|].
  now rewrite IH, andb_assoc.
Qed.

Lemma strip_empty_iff (s : string) :
  PyStr.is_empty (PyStr.strip s) = PyStr.all_space s.
Proof.
  destruct (PyStr.all_space s) eqn:E.
  - now rewrite (strip_all_space s E).
  - destruct (PyStr.strip s) eqn:Es; [|reflexivity].
    destruct (strip_split s) as [l [r [Hs [Hl Hr]]]].
    rewrite Es in Hs. rewrite Hs, all_space_app in E. simpl in E.
    rewrite Hl, Hr in E. discriminate.
Qed.

(** The second probe is run exactly when the first command succeeded and
    printed nothing but whitespace; a failed first command ends the chain. *)
Lemma second_probe_runs_iff (e : Env) :
  In nvidia_smi_cmd (linux_gpu_probes e)
  <-> exists output, check_output e lspci_cmd = Some output
                     /\ PyStr.all_space output = true.
Proof.
  unfold linux_gpu_probes, runner_text.
  destruct (check_output e lspci_cmd) as [output|].
  - rewrite strip_empty_iff. destruct (PyStr.all_space output) eqn:E.
    + split; [intros _; now exists output|intros _; right; now left].
    + split.
      * intros [H|[]]. discriminate.
      * intros [o [Ho Hs]]. injection Ho as <-. congruence.
  - cbn. split.
    + intros [H|[]]. discriminate.
    + intros [o [Ho _]]. discriminate.
Qed.

(** C5 (the code departs from it): the first probe's command fails (its
    [grep] matched nothing), the NVIDIA query would have answered, yet the
    chain stops: the failure sentinel is a non-empty text, so only the
    first command is run and the descriptor's text is "Not available". *)
Theorem failed_probe_stops_chain :
  let e := sample_env "Linux"
             (shell [(nvidia_smi_cmd,
                      "NVIDIA GeForce RTX 3080, 10240 MiB, 535.54")])
             WmiMissing in
  check_output e lspci_cmd = None
  /\ check_output e nvidia_smi_cmd
     = Some "NVIDIA GeForce RTX 3080, 10240 MiB, 535.54"
  /\ get_gpu_info e init
     = (mkState [] [Ran lspci_cmd], Return (Some [name_only "Not available"]))
  /\ ~ In nvidia_smi_cmd (linux_gpu_probes e)
  /\ dict_get "GPU_1_Name" (specs (fst (run_collect e)))
     = Some (PStr "Not available").
Proof.
  cbv zeta. repeat split.
  intros [H|[]]. discriminate.
Qed.

(** ** The two Windows paths *)

(** C6 (the code departs from it): the structured path assigns
    Manufacturer; the text-command fallback, with every command
    succeeding, assigns the other five fields and leaves Manufacturer
    absent. *)
Theorem windows_fallback_lacks_manufacturer :
  let structured :=
    sample_env "Windows" all_fail
               (WmiConnected (sample_wmi (Some 64000000000%Z))) in
  let fallback := sample_env "Windows" wmic_shell WmiMissing in
  let d := specs (fst (run_collect fallback)) in
  dict_get "Manufacturer" (specs (fst (run_collect structured)))
  = Some (PStr "Acme")
  /\ snd (run_collect fallback) = Return d
  /\ dict_get "Manufacturer" d = None
  /\ dict_keys d
     = (common_keys ++ windows_fallback_keys ++ gpu_1_keys)%list
  /\ dict_keys (specs (fst (run_collect structured)))
     = (common_keys ++ windows_structured_keys ++ gpu_1_keys)%list.
Proof. cbv zeta. repeat split. Qed.

(** ** Presence of the attempted fields *)








(** * Further properties of the collection pass *)

(** ** Every method only assigns *)

Lemma dict_update_app (d items1 items2 : dict) :
  dict_update d (items1 ++ items2)%list
  = dict_update (dict_update d items1) items2.
Proof. unfold dict_update. apply fold_left_app. Qed.

Lemma writes_ret {A} (K : string -> bool) (a : A) : writes K (ret a).
Proof. intros st. exists []. split; [constructor|reflexivity]. Qed.

Lemma writes_raise {A} (K : string -> bool) (x : exn) :
  writes K (@raise A x).
Proof. intros st. exists []. split; [constructor|reflexivity]. Qed.

Lemma writes_bind {A B} (K : string -> bool) (m : M A) (k : A -> M B) :
  writes K m -> (forall a, writes K (k a)) -> writes K (bind m k).
Proof.
  intros Hm Hk st. destruct (Hm st) as [items1 [H1 E1]].
  unfold bind. destruct (m st) as [st' [a|x]]; cbn [fst] in *.
  - destruct (Hk a st') as [items2 [H2 E2]].
    exists (items1 ++ items2)%list. split; [now apply Forall_app|].
    now rewrite dict_update_app, <- E1.
  - now exists items1.
Qed.

Lemma writes_set (K : string -> bool) (k : string) (v : pyval) :
  K k = true -> writes K (set_spec k v).
Proof.
  intros HK st. exists [(k, v)]. split; [now repeat constructor|reflexivity].
Qed.

Lemma writes_emit (K : string -> bool) (ev : event) : writes K (emit ev).
Proof. intros st. exists []. split; [constructor|reflexivity]. Qed.

Lemma writes_or_raise {A} (K : string -> bool) (x : exn) (o : option A) :
  writes K (or_raise x o).
Proof. destruct o; [apply writes_ret|apply writes_raise]. Qed.

Lemma writes_try_except {A} (K : string -> bool) (body handler : M A) :
  writes K body -> writes K handler -> writes K (try_except body handler).
Proof.
  intros Hb Hh st. destruct (Hb st) as [items1 [H1 E1]].
  unfold try_except. destruct (body st) as [st' [a|x]]; cbn [fst] in *.
  - now exists items1.
  - destruct (Hh st') as [items2 [H2 E2]].
    exists (items1 ++ items2)%list. split; [now apply Forall_app|].
    now rewrite dict_update_app, <- E1.
Qed.

Lemma writes_try_except_import {A} (K : string -> bool)
  (body handler : M A) :
  writes K body -> writes K handler ->
  writes K (try_except_import body handler).
Proof.
  intros Hb Hh st. destruct (Hb st) as [items1 [H1 E1]].
  unfold try_except_import.
  destruct (body st) as [st' [a|x]]; cbn [fst] in *.
  - now exists items1.
  - destruct x; try (now exists items1).
    destruct (Hh st') as [items2 [H2 E2]].
    exists (items1 ++ items2)%list. split; [now apply Forall_app|].
    now rewrite dict_update_app, <- E1.
Qed.

Lemma writes_run (K : string -> bool) (e : Env) (command : string) :
  writes K (get_command_output e command).
Proof.
  intros st. rewrite get_command_output_eq. exists [].
  split; [constructor|reflexivity].
Qed.

Lemma writes_if {A} (K : string -> bool) (b : bool) (m1 m2 : M A) :
  writes K m1 -> writes K m2 -> writes K (if b then m1 else m2).
Proof. now destruct b. Qed.

Ltac writes_steps :=
  repeat first
    [ apply writes_ret | apply writes_raise | apply writes_emit
    | apply writes_run | apply writes_or_raise
    | apply writes_set; reflexivity
    | apply writes_bind; [|intro]
    | apply writes_try_except | apply writes_try_except_import
    | apply writes_if ].

Lemma writes_int_to_gb (K : string -> bool) (text : string) (k : Z) :
  writes K (int_to_gb text k).
Proof.
  unfold int_to_gb. apply writes_bind; [apply writes_or_raise|].
  intros n. apply writes_if; [apply writes_raise|apply writes_ret].
Qed.

Lemma writes_linux (e : Env) : writes is_collected_key (get_linux_info e).
Proof.
  unfold get_linux_info.
  repeat first [apply writes_int_to_gb | progress writes_steps].
Qed.

Lemma writes_mac (e : Env) : writes is_collected_key (get_mac_info e).
Proof.
  unfold get_mac_info.
  repeat first [apply writes_int_to_gb | progress writes_steps].
Qed.

Lemma writes_wmi_connect (K : string -> bool) (e : Env) :
  writes K (wmi_connect e).
Proof. unfold wmi_connect. destruct (wmi e); writes_steps. Qed.

Lemma writes_first_of {A} (K : string -> bool) (q : option (list A)) :
  writes K (first_of q).
Proof. unfold first_of. writes_steps. Qed.

Lemma writes_float_to_gb (K : string -> bool) (x : option Z) :
  writes K (float_to_gb x).
Proof. unfold float_to_gb. writes_steps. Qed.

Lemma writes_describe_disks (K : string -> bool)
  (drives : list Win32_DiskDrive) (disks : list string) :
  writes K (describe_disks drives disks).
Proof.
  revert disks. induction drives as [|disk rest IH]; intros disks; simpl.
  - apply writes_ret.
  - apply writes_bind; [apply writes_float_to_gb|]. intros size. apply IH.
Qed.

Lemma writes_windows (e : Env) : writes is_collected_key (get_windows_info e).
Proof.
  unfold get_windows_info.
  repeat first
    [ apply writes_wmi_connect | apply writes_first_of
    | apply writes_float_to_gb | apply writes_describe_disks
    | progress writes_steps ].
Qed.

Lemma writes_gpu_info (K : string -> bool) (e : Env) :
  writes K (get_gpu_info e).
Proof.
  unfold get_gpu_info.
  repeat first [apply writes_wmi_connect | progress writes_steps].
Qed.

Lemma gpu_key_is_gpu (i : nat) (suffix : string) :
  is_gpu_key (gpu_key i suffix) = true.
Proof.
  unfold is_gpu_key, gpu_key. simpl.
  now destruct (PyStr.str_of_nat (i + 1) ++ suffix).
Qed.

Lemma writes_merge_gpu (i : nat) (gpu : pyobj) :
  writes is_collected_key (merge_gpu i gpu).
Proof.
  unfold merge_gpu. destruct gpu as [d|v].
  - repeat (apply writes_bind; [|intro]);
      apply writes_set; unfold is_collected_key;
      rewrite gpu_key_is_gpu; apply orb_true_r.
  - apply writes_set. unfold is_collected_key.
    rewrite gpu_key_is_gpu. apply orb_true_r.
Qed.

Lemma writes_merge_gpus (l : list pyobj) (i : nat) :
  writes is_collected_key (merge_gpus i l).
Proof.
  revert i. induction l as [|gpu rest IH]; intros i; simpl.
  - apply writes_ret.
  - apply writes_bind; [apply writes_merge_gpu|]. intros _. apply IH.
Qed.

(** ** The record after any run *)

Lemma dict_set_past (d r : dict) (k : string) (v : pyval) :
  existsb (String.eqb k) (dict_keys d) = false ->
  dict_set k v (d ++ r)%list = (d ++ dict_set k v r)%list.
Proof.
  induction d as [|[k' v'] d IH]; simpl; [reflexivity|].
  intros H. apply orb_false_elim in H as [Hk Hd].
  rewrite String.eqb_sym in Hk. rewrite Hk. now rewrite IH.
Qed.

Lemma dict_update_past (K : string -> bool) (d : dict) (items r : dict) :
  (forall k, K k = true -> existsb (String.eqb k) (dict_keys d) = false) ->
  Forall (fun kv => K (fst kv) = true) items ->
  dict_update (d ++ r)%list items = (d ++ dict_update r items)%list.
Proof.
  intros Hd Hitems. revert r.
  induction Hitems as [|[k v] items Hk _ IH]; intros r; [reflexivity|].
  unfold dict_update in *. cbn [fold_left fst snd].
  rewrite dict_set_past by (apply Hd; exact Hk). apply IH.
Qed.

Lemma dict_set_keeps (K : string -> bool) (k : string) (v : pyval)
  (d : dict) :
  K k = true ->
  Forall (fun kv => K (fst kv) = true) d ->
  Forall (fun kv => K (fst kv) = true) (dict_set k v d).
Proof.
  intros Hk Hd. induction Hd as [|[k' v'] d Hk' Hd IH]; simpl.
  - now repeat constructor.
  - destruct (String.eqb k' k); constructor; assumption.
Qed.

Lemma dict_update_keeps (K : string -> bool) (items d : dict) :
  Forall (fun kv => K (fst kv) = true) items ->
  Forall (fun kv => K (fst kv) = true) d ->
  Forall (fun kv => K (fst kv) = true) (dict_update d items).
Proof.
  intros Hitems. revert d.
  induction Hitems as [|[k v] items Hk _ IH]; intros d Hd; [exact Hd|].
  unfold dict_update in *. cbn [fold_left fst snd].
  apply IH. now apply dict_set_keeps.
Qed.

Lemma existsb_eqb_in (k : string) (l : list string) :
  existsb (String.eqb k) l = true <-> In k l.
Proof.
  rewrite existsb_exists. split.
  - intros [x [Hin Hx]]. apply String.eqb_eq in Hx. now subst.
  - intros Hin. exists k. split; [exact Hin|apply String.eqb_refl].
Qed.

Lemma dict_set_nodup (k : string) (v : pyval) (d : dict) :
  NoDup (dict_keys d) -> NoDup (dict_keys (dict_set k v d)).
Proof.
  intros Hd. rewrite dict_keys_set.
  destruct (existsb (String.eqb k) (dict_keys d)) eqn:E; [exact Hd|].
  apply NoDup_app; [exact Hd|repeat constructor; intros []|].
  intros x Hx [Hk|[]]. subst x.
  apply existsb_eqb_in in Hx. congruence.
Qed.

Lemma dict_update_nodup (items d : dict) :
  NoDup (dict_keys d) -> NoDup (dict_keys (dict_update d items)).
Proof.
  revert d. induction items as [|[k v] items IH]; intros d Hd; [exact Hd|].
  unfold dict_update in *. cbn [fold_left fst snd].
  apply IH. now apply dict_set_nodup.
Qed.

Lemma common_key_not_collected (k : string) :
  is_collected_key k = true ->
  existsb (String.eqb k) common_keys = false.
Proof.
  intros Hk. destruct (existsb (String.eqb k) common_keys) eqn:E;
    [|reflexivity].
  apply existsb_eqb_in in E. unfold common_keys in E.
  repeat (destruct E as [E|E]; [subst k; discriminate|]). destruct E.
Qed.

(** The part of [collect_info] after the five common assignments only
    assigns platform and GPU keys. *)
Lemma collect_info_writes (e : Env) :
  exists items,
    Forall (fun kv => is_collected_key (fst kv) = true) items
    /\ specs (fst (run_collect e)) = dict_update (common_fields e) items.
Proof.
  unfold run_collect, collect_info. rewrite !bind_set.
  match goal with
  | |- context [fst (bind ?m ?k ?st)] =>
      assert (Hw : writes is_collected_key (bind m k))
  end.
  { apply writes_bind.
    - repeat apply writes_if;
        [apply writes_linux|apply writes_mac|apply writes_windows
        |apply writes_ret].
    - intros _. apply writes_bind; [apply writes_gpu_info|].
      intros gpu_info. apply writes_bind; [apply writes_or_raise|].
      intros descriptors. apply writes_bind; [apply writes_merge_gpus|].
      intros _ st. exists []. split; [constructor|reflexivity]. }
  match goal with
  | |- context [fst (bind ?m ?k ?st)] => destruct (Hw st) as [items [H1 H2]]
  end.
  exists items. split; [exact H1|]. rewrite H2. reflexivity.
Qed.

(** X1: whatever the platform and however the run ends (normally or with
    an exception), the record starts with the five common fields holding
    the platform's answers and the scan date; everything after them is a
    platform field or a GPU field, and no key occurs twice. *)
Theorem common_fields_survive (e : Env) :
  exists rest,
    specs (fst (run_collect e)) = (common_fields e ++ rest)%list
    /\ Forall (fun kv => is_collected_key (fst kv) = true) rest
    /\ NoDup (dict_keys (specs (fst (run_collect e)))).
Proof.
  destruct (collect_info_writes e) as [items [Hitems Hspecs]].
  exists (dict_update [] items). split; [|split].
  - rewrite Hspecs. rewrite <- (app_nil_r (common_fields e)) at 1.
    apply (dict_update_past is_collected_key); [|exact Hitems].
    intros k Hk. now apply common_key_not_collected.
  - apply dict_update_keeps; [exact Hitems|constructor].
  - rewrite Hspecs. apply dict_update_nodup.
    unfold common_fields, dict_keys. cbn [map fst].
    repeat constructor; cbn [In]; intuition discriminate.
Qed.

(** ** The merge loop in general *)

Lemma merge_gpu_eq (i : nat) (gpu : pyobj) (st : State) :
  merge_gpu i gpu st = (after st (descriptor_fields i gpu) [], Return tt).
Proof.
  destruct gpu as [d|v]; unfold merge_gpu, descriptor_fields.
  - rewrite !bind_set. unfold after, assigned, set_spec, dict_update.
    cbn [fold_left fst snd specs trace map]. now rewrite app_nil_r.
  - unfold after, set_spec, dict_update.
    cbn [fold_left fst snd specs trace map]. now rewrite app_nil_r.
Qed.

Lemma merge_gpus_eq (gpu_info : list pyobj) (i : nat) (st : State) :
  merge_gpus i gpu_info st
  = (after st (merged_fields i gpu_info) [], Return tt).
Proof.
  revert i st. induction gpu_info as [|gpu rest IH]; intros i st; simpl.
  - unfold ret, after, dict_update. cbn. rewrite app_nil_r.
    now destruct st.
  - rewrite (bind_return _ _ _ _ _ (merge_gpu_eq i gpu st)).
    rewrite IH. unfold after. cbn [specs trace map].
    rewrite dict_update_app, !app_nil_r. reflexivity.
Qed.

Lemma string_of_uint_digits (d : Decimal.uint) :
  all_digits (NilEmpty.string_of_uint d) = true.
Proof. induction d; simpl; auto. Qed.

Lemma str_of_nat_digits (n : nat) : all_digits (PyStr.str_of_nat n) = true.
Proof. apply string_of_uint_digits. Qed.

Lemma str_of_nat_inj (n m : nat) :
  PyStr.str_of_nat n = PyStr.str_of_nat m -> n = m.
Proof.
  unfold PyStr.str_of_nat. intros H.
  apply DecimalNat.Unsigned.to_uint_inj.
  assert (Hs : Some (Nat.to_uint n) = Some (Nat.to_uint m))
    by (rewrite <- !NilEmpty.usu; now rewrite H).
  now injection Hs.
Qed.

Lemma digits_then_suffix (a b s t : string) :
  all_digits a = true -> all_digits b = true ->
  key_suffix s = true -> key_suffix t = true ->
  a ++ s = b ++ t -> a = b /\ s = t.
Proof.
  revert b. induction a as [|x a IH]; intros b Ha Hb Hs Ht H.
  - destruct b as [|y b]; [now split|]. simpl in *.
    apply andb_prop in Hb as [Hy _]. subst s. simpl in Hs.
    now rewrite Hy in Hs.
  - destruct b as [|y b]; simpl in *.
    + apply andb_prop in Ha as [Hx _]. subst t. simpl in Ht.
      now rewrite Hx in Ht.
    + injection H as <- H. apply andb_prop in Ha as [_ Ha].
      apply andb_prop in Hb as [_ Hb].
      destruct (IH b Ha Hb Hs Ht H) as [-> ->]. now split.
Qed.

Lemma gpu_key_inj (i j : nat) (s t : string) :
  key_suffix s = true -> key_suffix t = true ->
  gpu_key i s = gpu_key j t -> i = j /\ s = t.
Proof.
  intros Hs Ht H. unfold gpu_key in H. apply append_inj_l in H.
  apply digits_then_suffix in H;
    [|apply str_of_nat_digits|apply str_of_nat_digits|exact Hs|exact Ht].
  destruct H as [Hn Hst]. apply str_of_nat_inj in Hn. split; [lia|exact Hst].
Qed.

Lemma dict_get_update_other (k : string) (items d : dict) :
  Forall (fun kv => String.eqb (fst kv) k = false) items ->
  dict_get k (dict_update d items) = dict_get k d.
Proof.
  intros H. revert d. induction H as [|[k' v'] items Hk _ IH]; intros d;
    [reflexivity|].
  unfold dict_update in *. cbn [fold_left fst snd]. rewrite IH.
  now apply dict_get_set_other.
Qed.

Lemma dict_get_update_last (k : string) (v : pyval) (before later d : dict) :
  Forall (fun kv => String.eqb (fst kv) k = false) later ->
  dict_get k (dict_update d (before ++ (k, v) :: later)%list) = Some v.
Proof.
  intros H. rewrite dict_update_app.
  change ((k, v) :: later) with ([(k, v)] ++ later)%list.
  rewrite dict_update_app, dict_get_update_other by exact H.
  apply dict_get_set_same.
Qed.

Lemma descriptor_keys (i : nat) (gpu : pyobj) :
  Forall (fun kv => exists s, key_suffix s = true /\ fst kv = gpu_key i s)
         (descriptor_fields i gpu).
Proof.
  destruct gpu as [d|v]; unfold descriptor_fields;
    repeat constructor; cbn [fst]; eexists; (split; [|reflexivity]);
    reflexivity.
Qed.

Lemma merged_keys (gpu_info : list pyobj) (i : nat) :
  Forall (fun kv => exists j s,
              i <= j < i + length gpu_info
              /\ key_suffix s = true /\ fst kv = gpu_key j s)
         (merged_fields i gpu_info).
Proof.
  revert i. induction gpu_info as [|gpu rest IH]; intros i; simpl;
    [constructor|].
  apply Forall_app. split.
  - eapply Forall_impl; [|apply descriptor_keys].
    intros kv [s [Hs Hk]]. exists i, s. repeat split; [lia|lia|assumption..].
  - eapply Forall_impl; [|apply IH].
    intros kv [j [s [Hj [Hs Hk]]]]. exists j, s.
    repeat split; [lia|lia|assumption..].
Qed.

Lemma gpu_key_differs (i j : nat) (s t : string) :
  key_suffix s = true -> key_suffix t = true ->
  i <> j \/ s <> t ->
  String.eqb (gpu_key j t) (gpu_key i s) = false.
Proof.
  intros Hs Ht Hne. apply String.eqb_neq. intros H.
  apply gpu_key_inj in H; [|assumption..]. destruct H as [-> ->].
  destruct Hne; congruence.
Qed.

Lemma descriptor_lookup (i : nat) (gpu : pyobj) (k : string) (v : pyval)
  (d : dict) :
  In (k, v) (descriptor_fields i gpu) ->
  dict_get k (dict_update d (descriptor_fields i gpu)) = Some v.
Proof.
  destruct gpu as [g|w]; unfold descriptor_fields; cbn [In].
  - intros [H|[H|[H|[]]]]; injection H as <- <-.
    + apply (dict_get_update_last _ _ []).
      repeat constructor; cbn [fst];
        apply gpu_key_differs; try reflexivity; right; discriminate.
    + apply (dict_get_update_last _ _ [_]).
      repeat constructor; cbn [fst];
        apply gpu_key_differs; try reflexivity; right; discriminate.
    + apply (dict_get_update_last _ _ [_; _]). constructor.
  - intros [H|[]]. injection H as <- <-.
    apply (dict_get_update_last _ _ []). constructor.
Qed.

Lemma merged_lookup (gpu_info : list pyobj) :
  forall i j gpu k v d,
    nth_error gpu_info j = Some gpu ->
    In (k, v) (descriptor_fields (i + j) gpu) ->
    dict_get k (dict_update d (merged_fields i gpu_info)) = Some v.
Proof.
  induction gpu_info as [|first rest IH]; intros i j gpu k v d Hnth Hin.
  - destruct j; discriminate.
  - simpl. rewrite dict_update_app. destruct j as [|j].
    + injection Hnth as ->. rewrite Nat.add_0_r in Hin.
      rewrite dict_get_update_other; [now apply descriptor_lookup|].
      pose proof (descriptor_keys i gpu) as Hk.
      rewrite Forall_forall in Hk. destruct (Hk _ Hin) as [s [Hs Hks]].
      cbn [fst] in Hks. subst k.
      eapply Forall_impl; [|apply merged_keys].
      intros kv [j [t [Hj [Ht Hkt]]]]. rewrite Hkt.
      apply gpu_key_differs; [assumption..|left; lia].
    + apply (IH (S i) j gpu); [exact Hnth|].
      now replace (S i + j) with (i + S j) by lia.
Qed.

(** X2: the merge loop never raises and runs no command; every entry of
    the [j]-th descriptor is retrievable afterwards under the 1-based index
    [j+1] (no descriptor overwrites another), GPU keys with an index beyond
    the list are left as they were, and so is every key outside the GPU
    section. *)
Theorem merged_descriptors_retrievable (gpu_info : list pyobj) (st : State) :
  snd (merge_gpus 0 gpu_info st) = Return tt
  /\ trace (fst (merge_gpus 0 gpu_info st)) = trace st
  /\ (forall j gpu k v,
        nth_error gpu_info j = Some gpu ->
        In (k, v) (descriptor_fields j gpu) ->
        dict_get k (specs (fst (merge_gpus 0 gpu_info st))) = Some v)
  /\ (forall j s,
        length gpu_info <= j -> key_suffix s = true ->
        dict_get (gpu_key j s) (specs (fst (merge_gpus 0 gpu_info st)))
        = dict_get (gpu_key j s) (specs st))
  /\ (forall k,
        is_gpu_key k = false ->
        dict_get k (specs (fst (merge_gpus 0 gpu_info st)))
        = dict_get k (specs st)).
Proof.
  rewrite merge_gpus_eq. unfold after. cbn [fst snd specs trace map].
  split; [reflexivity|]. split; [apply app_nil_r|]. split; [|split].
  - intros j gpu k v Hnth Hin. now apply (merged_lookup gpu_info 0 j gpu).
  - intros j s Hj Hs. apply dict_get_update_other.
    eapply Forall_impl; [|apply merged_keys].
    intros kv [j' [t [Hj' [Ht Hk]]]]. rewrite Hk.
    apply gpu_key_differs; [assumption..|left; lia].
  - intros k Hk. apply dict_get_update_other.
    eapply Forall_impl; [|apply merged_keys].
    intros kv [j' [t [_ [_ Hkt]]]]. rewrite Hkt.
    apply String.eqb_neq. intros <-. now rewrite gpu_key_is_gpu in Hk.
Qed.

(** ** The structured Windows path *)

Lemma describe_disks_eq (drives : list Win32_DiskDrive)
  (disks : list string) (st : State) :
  describe_disks drives disks st
  = match disk_entries drives with
    | Some entries => (st, Return (disks ++ entries)%list)
    | None => (st, Raise TypeError)
    end.
Proof.
  revert disks. induction drives as [|disk rest IH]; intros disks; simpl.
  - now rewrite app_nil_r.
  - unfold bind, float_to_gb, or_raise. destruct (disk_Size disk) as [size|].
    + cbn. rewrite IH. destruct (disk_entries rest) as [entries|].
      * now rewrite <- app_assoc.
      * reflexivity.
    + reflexivity.
Qed.

Ltac run_structured :=
  unfold first_of, float_to_gb, bind, or_raise, set_spec, ret, raise;
  cbn beta iota delta [hd_error specs trace fst snd].

Ltac structured_step :=
  cbn beta iota delta [hd_error specs trace fst snd].

Lemma get_windows_info_structured_eq (e : Env) (c : wmi_connection)
  (fields : dict) (st : State) :
  wmi e = WmiConnected c ->
  structured_info_fields c = Some fields ->
  get_windows_info e st = (after st fields [], Return tt).
Proof.
  intros Hw Hf. unfold structured_info_fields in Hf.
  unfold get_windows_info, try_except_import, wmi_connect. rewrite Hw.
  run_structured.
  destruct (q_ComputerSystem c) as [[|system ?]|]; try discriminate.
  destruct (q_Processor c) as [[|cpu ?]|]; try discriminate.
  destruct (q_BIOS c) as [[|bios ?]|]; try discriminate.
  destruct (q_OperatingSystem c) as [[|os_info ?]|]; try discriminate.
  structured_step.
  destruct (cs_TotalPhysicalMemory system) as [ram|]; try discriminate.
  destruct (q_DiskDrive c) as [drives|]; try discriminate.
  structured_step. rewrite describe_disks_eq.
  destruct (disk_entries drives) as [entries|]; try discriminate.
  injection Hf as <-.
  unfold after, dict_update.
  cbn [fold_left fst snd specs trace map app]. now rewrite app_nil_r.
Qed.

(** When the interface is importable but one of the queries of
    [get_windows_info] does not answer, the exception leaves the method:
    there is no fallback to the text commands. *)
Lemma get_windows_info_structured_fails (e : Env) (st : State) :
  (wmi e = WmiUnreachable
   \/ exists c, wmi e = WmiConnected c /\ structured_info_fields c = None) ->
  exists st' x,
    get_windows_info e st = (st', Raise x)
    /\ x <> ImportError
    /\ trace st' = trace st
    /\ dict_get "Storage" (specs st') = dict_get "Storage" (specs st).
Proof.
  intros [Hw|[c [Hw Hf]]];
    unfold get_windows_info, try_except_import, wmi_connect; rewrite Hw.
  { exists st, WmiError. unfold bind, raise.
    repeat split; discriminate. }
  unfold structured_info_fields in Hf. run_structured.
  destruct (q_ComputerSystem c) as [[|system ?]|]; structured_step;
    try (exists st; eexists; repeat split; discriminate).
  destruct (q_Processor c) as [[|cpu ?]|]; structured_step;
    try (exists st; eexists; repeat split; discriminate).
  destruct (q_BIOS c) as [[|bios ?]|]; structured_step;
    try (exists st; eexists; repeat split; discriminate).
  destruct (q_OperatingSystem c) as [[|os_info ?]|]; structured_step;
    try (exists st; eexists; repeat split; discriminate).
  destruct (cs_TotalPhysicalMemory system) as [ram|]; structured_step.
  2:{ do 2 eexists. repeat split; [discriminate|]. cbn [specs].
      rewrite !dict_get_set_other by reflexivity. reflexivity. }
  destruct (q_DiskDrive c) as [drives|]; structured_step.
  2:{ do 2 eexists. repeat split; [discriminate|]. cbn [specs].
      rewrite !dict_get_set_other by reflexivity. reflexivity. }
  rewrite describe_disks_eq.
  destruct (disk_entries drives); [discriminate|].
  do 2 eexists. repeat split; [discriminate|]. cbn [specs].
  rewrite !dict_get_set_other by reflexivity. reflexivity.
Qed.

Lemma get_gpu_info_windows_eq (e : Env) (st : State) :
  platform_system e = "Windows" ->
  get_gpu_info e st
  = (after st [] (windows_gpu_commands e),
     Return (Some (windows_gpu_descriptors e))).
Proof.
  intros Hs. unfold windows_gpu_commands, windows_gpu_descriptors.
  destruct (wmi_video_controllers e) as [controllers|] eqn:Hv.
  - rewrite (get_gpu_info_windows_structured_eq e st controllers Hs Hv).
    unfold after, dict_update. cbn. rewrite app_nil_r. now destruct st.
  - apply (get_gpu_info_windows_fallback_eq e st Hs Hv).
Qed.

Lemma collect_info_windows_structured_eq (e : Env) (c : wmi_connection)
  (fields : dict) :
  platform_system e = "Windows" ->
  wmi e = WmiConnected c ->
  structured_info_fields c = Some fields ->
  run_collect e
  = collected (dict_update (common_fields e)
                 (fields ++ merged_fields 0 (windows_gpu_descriptors e))%list)
              (windows_gpu_commands e).
Proof.
  intros Hs Hw Hf. unfold run_collect, collect_info, system.
  rewrite !bind_set. rewrite Hs. cbn [String.eqb Ascii.eqb Bool.eqb]. cbv iota.
  rewrite (bind_return _ _ _ _ _
             (get_windows_info_structured_eq e c fields _ Hw Hf)).
  rewrite (bind_return _ _ _ _ _ (get_gpu_info_windows_eq e _ Hs)).
  unfold or_raise. rewrite bind_ret.
  rewrite (bind_return _ _ _ _ _ (merge_gpus_eq _ 0 _)).
  unfold collected, after. cbn [specs trace map app].
  rewrite !app_nil_r, dict_update_app. reflexivity.
Qed.

Lemma structured_fields_keys (c : wmi_connection) (fields : dict) :
  structured_info_fields c = Some fields ->
  dict_keys fields = windows_structured_keys.
Proof.
  unfold structured_info_fields.
  destruct (q_ComputerSystem c) as [[|system ?]|]; try discriminate.
  destruct (q_Processor c) as [[|cpu ?]|]; try discriminate.
  destruct (q_BIOS c) as [[|bios ?]|]; try discriminate.
  destruct (q_OperatingSystem c) as [[|os_info ?]|]; try discriminate.
  destruct (cs_TotalPhysicalMemory system); try discriminate.
  destruct (q_DiskDrive c) as [drives|]; try discriminate.
  destruct (disk_entries drives); try discriminate.
  intros H. injection H as <-. reflexivity.
Qed.

(** X3: on Windows with an importable management interface whose queries
    all answer, [collect_info] returns; the record holds the common fields,
    then Serial_Number, Manufacturer, Model, CPU, RAM_GB, Storage from the
    interface, then the GPU entries; and when the interface also lists the
    video controllers, not a single shell command is run. *)
Theorem windows_structured_collects (e : Env) (c : wmi_connection)
  (fields : dict) :
  platform_system e = "Windows" ->
  wmi e = WmiConnected c ->
  structured_info_fields c = Some fields ->
  exists d,
    snd (run_collect e) = Return d
    /\ specs (fst (run_collect e)) = d
    /\ d = dict_update (common_fields e ++ fields)%list
             (merged_fields 0 (windows_gpu_descriptors e))
    /\ dict_keys (common_fields e ++ fields)%list
       = (common_keys ++ windows_structured_keys)%list
    /\ (forall controllers,
          q_VideoController c = Some controllers ->
          trace (fst (run_collect e)) = []
          /\ windows_gpu_descriptors e = map gpu_descriptor controllers).
Proof.
  intros Hs Hw Hf.
  rewrite (collect_info_windows_structured_eq e c fields Hs Hw Hf).
  eexists. split; [reflexivity|]. split; [reflexivity|].
  pose proof (structured_fields_keys c fields Hf) as Hk.
  split; [|split].
  - rewrite dict_update_app. f_equal.
    rewrite <- (app_nil_r (common_fields e)) at 1.
    rewrite (dict_update_past is_collected_key).
    + f_equal. clear Hk. unfold structured_info_fields in Hf.
      destruct (q_ComputerSystem c) as [[|system ?]|]; try discriminate.
      destruct (q_Processor c) as [[|cpu ?]|]; try discriminate.
      destruct (q_BIOS c) as [[|bios ?]|]; try discriminate.
      destruct (q_OperatingSystem c) as [[|os_info ?]|]; try discriminate.
      destruct (cs_TotalPhysicalMemory system); try discriminate.
      destruct (q_DiskDrive c) as [drives|]; try discriminate.
      destruct (disk_entries drives); try discriminate.
      injection Hf as <-. reflexivity.
    + intros k Hkk. now apply common_key_not_collected.
    + rewrite Forall_forall. intros [k v] Hin. cbn [fst].
      assert (Hkin : In k (dict_keys fields))
        by (unfold dict_keys; now apply (in_map fst _ (k, v))).
      rewrite Hk in Hkin. unfold is_collected_key, is_platform_key.
      apply orb_true_intro. left. now apply existsb_eqb_in.
  - unfold dict_keys in *. rewrite map_app, Hk. reflexivity.
  - intros controllers Hv. unfold collected. cbn [fst trace].
    unfold windows_gpu_commands, windows_gpu_descriptors,
      wmi_video_controllers. rewrite Hw, Hv. split; reflexivity.
Qed.

Lemma windows_structured_collects_witness :
  let e := sample_env "Windows" all_fail
             (WmiConnected (sample_wmi (Some 64000000000%Z))) in
  exists d,
    snd (run_collect e) = Return d
    /\ dict_get "Storage" d = Some (PStr "Card Reader (59.6 GB)")
    /\ trace (fst (run_collect e)) = [].
Proof.
  cbv zeta.
  destruct (windows_structured_collects
              (sample_env "Windows" all_fail
                 (WmiConnected (sample_wmi (Some 64000000000%Z))))
              (sample_wmi (Some 64000000000%Z))
              [("Serial_Number", PStr "SN-1"); ("Manufacturer", PStr "Acme");
               ("Model", PStr "Box 9"); ("CPU", PStr "Acme CPU");
               ("RAM_GB", PFloat (PyNum.round_gb 17179869184 3));
               ("Storage", PStr "Card Reader (59.6 GB)")]
              eq_refl eq_refl eq_refl)
    as [d [Hret [_ [Hd [_ Htrace]]]]].
  exists d. split; [exact Hret|]. split.
  - rewrite Hd. reflexivity.
  - now destruct (Htrace _ eq_refl).
Defined.

(** ** When does the collection pass return *)

Lemma collect_info_windows_raises (e : Env) :
  platform_system e = "Windows" ->
  windows_info_ok e = false ->
  exists st' x,
    run_collect e = (st', Raise x)
    /\ x <> ImportError /\ trace st' = []
    /\ dict_get "Storage" (specs st') = None.
Proof.
  intros Hs Hok.
  assert (Hbad : wmi e = WmiUnreachable
                 \/ exists c, wmi e = WmiConnected c
                              /\ structured_info_fields c = None).
  { unfold windows_info_ok in Hok. destruct (wmi e) as [| |c];
      [discriminate|now left|right].
    exists c. split; [reflexivity|].
    now destruct (structured_info_fields c). }
  unfold run_collect, collect_info, system.
  rewrite !bind_set. rewrite Hs. cbn [String.eqb Ascii.eqb Bool.eqb]. cbv iota.
  match goal with
  | |- context [bind (get_windows_info e) ?k ?st] =>
      destruct (get_windows_info_structured_fails e st Hbad)
        as [st' [x [Heq [Hx [Ht Hstorage]]]]];
      rewrite (bind_raise _ k _ _ _ Heq)
  end.
  exists st', x. repeat split; assumption.
Qed.

(** X4: [collect_info] returns normally exactly when the platform is Linux
    or Darwin, or it is Windows and either the management interface is
    missing (the text commands take over) or every query of
    [get_windows_info] answers.  In every other case it raises; and when it
    returns, what it returns is the record. *)
Theorem collect_info_returns_iff (e : Env) :
  ((exists d, snd (run_collect e) = Return d) <-> run_succeeds e = true)
  /\ (forall d, snd (run_collect e) = Return d ->
                d = specs (fst (run_collect e))).
Proof.
  unfold run_succeeds.
  destruct (String.eqb (platform_system e) "Linux") eqn:Hl.
  { apply String.eqb_eq in Hl. rewrite (collect_info_linux_eq e Hl).
    split; [split; [reflexivity|intros _; eexists; reflexivity]|].
    intros d H. now injection H as <-. }
  destruct (String.eqb (platform_system e) "Darwin") eqn:Hd.
  { apply String.eqb_eq in Hd. rewrite (collect_info_mac_eq e Hd).
    split; [split; [reflexivity|intros _; eexists; reflexivity]|].
    intros d H. now injection H as <-. }
  destruct (String.eqb (platform_system e) "Windows") eqn:Hw.
  - apply String.eqb_eq in Hw. cbn [orb andb].
    destruct (windows_info_ok e) eqn:Hok.
    + unfold windows_info_ok in Hok. destruct (wmi e) as [| |c] eqn:Hwmi;
        [|discriminate|].
      * rewrite (collect_info_windows_fallback_eq e Hw Hwmi).
        split; [split; [reflexivity|intros _; eexists; reflexivity]|].
        intros d H. now injection H as <-.
      * destruct (structured_info_fields c) as [fields|] eqn:Hf;
          [|discriminate].
        rewrite (collect_info_windows_structured_eq e c fields Hw Hwmi Hf).
        split; [split; [reflexivity|intros _; eexists; reflexivity]|].
        intros d H. now injection H as <-.
    + destruct (collect_info_windows_raises e Hw Hok)
        as [st' [x [Heq _]]].
      rewrite Heq. split; [split|]; cbn [snd].
      * intros [d H]. discriminate.
      * discriminate.
      * intros d H. discriminate.
  - rewrite (collect_info_unrecognized_eq e Hl Hd Hw). cbn [orb andb snd].
    split; [split|].
    + intros [d H]. discriminate.
    + discriminate.
    + intros d H. discriminate.
Qed.

(** X5: on Windows, when the management interface can be imported but
    cannot be reached or one of the queries of [get_windows_info] does not
    answer, the text commands are not tried: [collect_info] raises (not an
    ImportError) without having run any command, and Storage is absent. *)
Theorem importable_interface_never_falls_back (e : Env) :
  platform_system e = "Windows" ->
  windows_info_ok e = false ->
  exists st' x,
    run_collect e = (st', Raise x)
    /\ x <> ImportError
    /\ trace st' = []
    /\ dict_get "Storage" (specs st') = None.
Proof. apply collect_info_windows_raises. Qed.

Lemma importable_interface_never_falls_back_witness :
  let e := sample_env "Windows" wmic_shell WmiUnreachable in
  exists st' x,
    run_collect e = (st', Raise x)
    /\ x <> ImportError
    /\ trace st' = []
    /\ dict_get "Storage" (specs st') = None.
Proof.
  cbv zeta. apply importable_interface_never_falls_back; reflexivity.
Defined.

(** ** The disk loop and the video controllers *)

Lemma disk_entries_length (drives : list Win32_DiskDrive)
  (entries : list string) :
  disk_entries drives = Some entries -> length entries = length drives.
Proof.
  revert entries. induction drives as [|disk rest IH]; intros entries; simpl.
  - intros H. now injection H as <-.
  - destruct (disk_Size disk); [|discriminate].
    destruct (disk_entries rest) as [tail|]; [|discriminate].
    intros H. injection H as <-. simpl. now rewrite (IH tail).
Qed.




Lemma memory_text_not_unknown (f : pyfloat) :
  PyNum.float_repr f ++ " GB" <> "Unknown".
Proof.
  intros H. apply (f_equal PyStr.last_char) in H.
  rewrite last_char_app in H by discriminate. discriminate.
Qed.

(** X7: the Memory entry of a structured GPU descriptor is "Unknown"
    exactly when the adapter RAM is null or zero; otherwise it is the size
    in GB followed by " GB".  Name and driver version are passed through,
    a null one as None. *)
Theorem gpu_memory_unknown_iff (gpu : Win32_VideoController) :
  exists d,
    gpu_descriptor gpu = ODict d
    /\ dict_keys d = ["Name"; "Memory"; "Driver_Version"]
    /\ dict_get "Name" d = Some (of_text (gpu_Name gpu))
    /\ dict_get "Driver_Version" d = Some (of_text (gpu_DriverVersion gpu))
    /\ (dict_get "Memory" d = Some (PStr "Unknown")
        <-> gpu_AdapterRAM gpu = None \/ gpu_AdapterRAM gpu = Some 0%Z)
    /\ (forall ram,
          gpu_AdapterRAM gpu = Some ram -> ram <> 0%Z ->
          dict_get "Memory" d
          = Some (PStr (PyNum.float_repr (PyNum.round_gb ram 3) ++ " GB"))).
Proof.
  unfold gpu_descriptor. eexists. split; [reflexivity|].
  repeat split.
  - cbn [dict_get String.eqb Ascii.eqb Bool.eqb].
    destruct (gpu_AdapterRAM gpu) as [ram|]; [|now left].
    destruct (Z.eqb_spec ram 0); [subst; now right|].
    intros H. injection H as H. now apply memory_text_not_unknown in H.
  - cbn [dict_get String.eqb Ascii.eqb Bool.eqb].
    intros [H|H]; rewrite H; reflexivity.
  - intros ram H Hne. cbn [dict_get String.eqb Ascii.eqb Bool.eqb].
    rewrite H. destruct (Z.eqb_spec ram 0); [contradiction|reflexivity].
Qed.

(** ** Which commands a run executes *)

(** X8: on Linux, on macOS and on the Windows fallback, the pass runs every
    command of its fixed list exactly once and in the source's order,
    whatever the earlier commands returned, and then the GPU probe(s):
    a failing command never cuts the list short. *)
Theorem platform_commands_all_run (e : Env) :
  (platform_system e = "Linux" ->
   trace (fst (run_collect e))
   = map Ran (linux_commands ++ linux_gpu_probes e)%list)
  /\ (platform_system e = "Darwin" ->
      trace (fst (run_collect e))
      = map Ran (mac_commands ++ [mac_gpu_cmd])%list)
  /\ (platform_system e = "Windows" -> wmi e = WmiMissing ->
      trace (fst (run_collect e))
      = map Ran (windows_fallback_commands ++ [wmic_gpu_cmd])%list).
Proof.
  split; [|split].
  - intros Hs. now rewrite (collect_info_linux_eq e Hs).
  - intros Hs. now rewrite (collect_info_mac_eq e Hs).
  - intros Hs Hw. now rewrite (collect_info_windows_fallback_eq e Hs Hw).
Qed.

Lemma is_empty_eq (s : string) : PyStr.is_empty s = true -> s = "".
Proof. destruct s; [reflexivity|discriminate]. Qed.

Lemma is_empty_neq (s : string) : PyStr.is_empty s = false -> s <> "".
Proof. destruct s; [discriminate|discriminate]. Qed.

(** X9: on Linux the enumerator runs the probes strictly in the order
    lspci, nvidia-smi, glxinfo and stops at the first one whose text (the
    trimmed output, or the sentinel of a failure) is not empty: it runs
    between one and three of them, every probe before the last one run gave
    the empty text, the descriptor holds the text of the last one run, and
    that text can only be empty when all three were run. *)
Theorem linux_probe_chain (e : Env) (st : State) :
  platform_system e = "Linux" ->
  exists n text,
    1 <= n <= 3
    /\ get_gpu_info e st
       = (after st [] (firstn n probe_chain), Return (Some [name_only text]))
    /\ text = runner_text e (nth (n - 1) probe_chain "")
    /\ (forall j, j < n - 1 -> runner_text e (nth j probe_chain "") = "")
    /\ (n < 3 -> text <> "").
Proof.
  intros Hs. rewrite (get_gpu_info_linux_eq e st Hs).
  unfold linux_gpu_probes, linux_gpu_text.
  destruct (PyStr.is_empty (runner_text e lspci_cmd)) eqn:E1.
  - destruct (PyStr.is_empty (runner_text e nvidia_smi_cmd)) eqn:E2.
    + exists 3, (runner_text e glxinfo_cmd).
      split; [lia|]. split; [reflexivity|]. split; [reflexivity|].
      split; [|lia]. intros j Hj.
      destruct j as [|[|j]]; [now apply is_empty_eq..|lia].
    + exists 2, (runner_text e nvidia_smi_cmd).
      split; [lia|]. split; [reflexivity|]. split; [reflexivity|].
      split; [|intros _; now apply is_empty_neq]. intros j Hj.
      destruct j as [|j]; [now apply is_empty_eq|lia].
  - exists 1, (runner_text e lspci_cmd).
    split; [lia|]. split; [reflexivity|]. split; [reflexivity|].
    split; [|intros _; now apply is_empty_neq]. intros j Hj. lia.
Qed.

Lemma linux_probe_chain_witness :
  let e := sample_env "Linux"
             (shell [(lspci_cmd, "  ");
                     (nvidia_smi_cmd, "NVIDIA GeForce RTX 3080, 10240 MiB, 535.54")])
             WmiMissing in
  exists n text,
    1 <= n <= 3
    /\ get_gpu_info e init
       = (after init [] (firstn n probe_chain),
          Return (Some [name_only text]))
    /\ text = runner_text e (nth (n - 1) probe_chain "")
    /\ (forall j, j < n - 1 -> runner_text e (nth j probe_chain "") = "")
    /\ (n < 3 -> text <> "").
Proof. cbv zeta. apply linux_probe_chain. reflexivity. Defined.

(** ** The report writer when something goes wrong *)

Lemma save_results_specs (e : Env) (st : State) :
  specs (fst (save_results e st)) = specs st.
Proof.
  unfold save_results, bind, or_raise, mkdir, write_file, emit, ret, raise.
  cbn [specs trace fst].
  destruct (stdin_line e); cbn [specs trace fst]; [|reflexivity].
  repeat (match goal with
          | |- context [fs_writable e ?p] => destruct (fs_writable e p)
          end; cbn [specs trace fst]; try reflexivity).
Qed.

Lemma save_results_eof (e : Env) (st : State) :
  stdin_line e = None ->
  save_results e st
  = (mkState (specs st) (trace st ++ [Asked report_prompt])%list,
     Raise EOFError).
Proof.
  intros Hin. unfold save_results, bind, or_raise, emit, raise.
  now rewrite Hin.
Qed.

(** X10: [save_results] never changes the record.  When the prompt meets
    the end of input it raises EOFError, and when the reports directory
    cannot be made it raises OSError; in both cases no file is written. *)
Theorem save_results_writes_nothing_early (e : Env) (st : State) :
  specs (fst (save_results e st)) = specs st
  /\ (stdin_line e = None ->
      save_results e st
      = (mkState (specs st) (trace st ++ [Asked report_prompt])%list,
         Raise EOFError))
  /\ (stdin_line e <> None ->
      fs_writable e (reports_dir e) = false ->
      save_results e st
      = (mkState (specs st) (trace st ++ [Asked report_prompt])%list,
         Raise OSError)).
Proof.
  split; [apply save_results_specs|]. split.
  - apply save_results_eof.
  - intros Hin Hdir. unfold save_results, bind, or_raise, mkdir, emit, raise.
    fold (script_dir e). fold (reports_dir e).
    destruct (stdin_line e); [|contradiction].
    unfold ret. cbn [specs trace]. now rewrite Hdir.
Qed.

(** X11: there is no rollback.  When the CSV file can be written and the
    JSON file cannot, [save_results] raises OSError after the CSV file has
    been written with all the rows; the CSV report stays. *)
Theorem csv_stays_when_json_fails (e : Env) (st : State)
  (response : string) :
  stdin_line e = Some response ->
  let base := report_base response (strftime_stamp (now_save e)) in
  let csv_file := Slash (reports_dir e) (base ++ ".csv") in
  let json_file := Slash (reports_dir e) (base ++ ".json") in
  fs_writable e (reports_dir e) = true ->
  fs_writable e csv_file = true ->
  fs_writable e json_file = false ->
  save_results e st
  = (mkState (specs st)
       (trace st
        ++ [Asked report_prompt; MadeDir (reports_dir e);
            Wrote csv_file (CsvFile (csv_rows (specs st)))])%list,
     Raise OSError).
Proof.
  intros Hin. cbv zeta. intros Hdir Hcsv Hjson.
  unfold save_results, bind, or_raise, mkdir, write_file.
  rewrite Hin. fold (script_dir e). fold (reports_dir e).
  unfold emit, ret, raise. cbn [specs trace].
  rewrite Hdir. cbn [specs trace]. rewrite Hcsv. cbn [specs trace].
  rewrite Hjson. rewrite <- !app_assoc. reflexivity.
Qed.

Lemma csv_stays_when_json_fails_witness :
  let e := with_writable
             (with_stdin (sample_env "Linux" all_fail WmiMissing)
                         (Some "lab7"))
             json_refused in
  save_results e (common_state e)
  = (mkState (common_fields e)
       [Asked report_prompt; MadeDir (reports_dir e);
        Wrote (Slash (reports_dir e) "lab7_20240305_140709.csv")
              (CsvFile (csv_rows (common_fields e)))],
     Raise OSError).
Proof.
  cbv zeta.
  exact (csv_stays_when_json_fails
           (with_writable
              (with_stdin (sample_env "Linux" all_fail WmiMissing)
                          (Some "lab7"))
              json_refused)
           (common_state
              (with_writable
                 (with_stdin (sample_env "Linux" all_fail WmiMissing)
                             (Some "lab7"))
                 json_refused))
           "lab7" eq_refl eq_refl eq_refl eq_refl).
Defined.

(** ** Rounding to two decimals *)

Section Rounding.

Local Open Scope Z_scope.

Lemma round_half_even_error (a d : Z) :
  0 < d -> 2 * Z.abs (a - PyNum.round_half_even a d * d) <= d.
Proof.
  intros Hd. unfold PyNum.round_half_even.
  pose proof (Z.div_mod a d ltac:(lia)) as Ha.
  pose proof (Z.mod_pos_bound a d Hd) as Hr.
  destruct (Z.ltb_spec (2 * (a mod d)) d);
    [|destruct (Z.ltb_spec d (2 * (a mod d)));
      [|destruct (Z.even (a / d))]]; nia.
Qed.

Lemma round_half_even_nonneg (a d : Z) :
  0 <= a -> 0 < d -> 0 <= PyNum.round_half_even a d.
Proof.
  intros Ha Hd. unfold PyNum.round_half_even.
  pose proof (Z.div_pos a d Ha Hd).
  destruct (2 * (a mod d) <? d); [lia|].
  destruct (d <? 2 * (a mod d)); [lia|].
  destruct (Z.even (a / d)); lia.
Qed.

Lemma round_half_even_mono (a b d : Z) :
  0 < d -> a <= b ->
  PyNum.round_half_even a d <= PyNum.round_half_even b d.
Proof.
  intros Hd Hab. unfold PyNum.round_half_even.
  pose proof (Z.div_mod a d ltac:(lia)) as Ha.
  pose proof (Z.div_mod b d ltac:(lia)) as Hb.
  pose proof (Z.mod_pos_bound a d Hd) as Hra.
  pose proof (Z.mod_pos_bound b d Hd) as Hrb.
  pose proof (Z.div_le_mono a b d Hd Hab) as Hq.
  destruct (Z.eq_dec (a / d) (b / d)) as [E|E].
  - rewrite <- E in *. assert (a mod d <= b mod d) by nia.
    destruct (Z.ltb_spec (2 * (a mod d)) d);
      destruct (Z.ltb_spec (2 * (b mod d)) d);
      destruct (Z.ltb_spec d (2 * (a mod d)));
      destruct (Z.ltb_spec d (2 * (b mod d)));
      destruct (Z.even (a / d)); lia.
  - destruct (2 * (a mod d) <? d); destruct (2 * (b mod d) <? d);
      destruct (d <? 2 * (a mod d)); destruct (d <? 2 * (b mod d));
      destruct (Z.even (a / d)); destruct (Z.even (b / d)); lia.
Qed.

Lemma small_does_not_overflow (n : Z) :
  Z.abs n < 2 ^ 1023 -> PyNum.div1024_overflows n = false.
Proof.
  intros H. unfold PyNum.div1024_overflows. apply Z.leb_gt.
  eapply Z.lt_trans; [exact H|]. reflexivity.
Qed.

Lemma to_double_small (a : Z) : a < 2 ^ 53 -> PyNum.to_double a = a.
Proof.
  intros H. unfold PyNum.to_double.
  destruct (Z.ltb_spec a (2 ^ 53)); [reflexivity|lia].
Qed.

Lemma centi_of_round_gb (n k : Z) :
  Z.abs n < 2 ^ 53 -> 0 <= k ->
  Z.of_N (f_centi (PyNum.round_gb n k))
  = PyNum.round_half_even (100 * Z.abs n) (1024 ^ k).
Proof.
  intros Hn Hk. unfold PyNum.round_gb. cbn [f_centi].
  rewrite to_double_small by exact Hn. rewrite Z2N.id; [reflexivity|].
  apply round_half_even_nonneg; [lia|]. now apply Z.pow_pos_nonneg.
Qed.

(** X12: the number stored for a size of [n] units (below 2^53) after [k]
    divisions by 1024 carries the sign of [n] and lies within half a
    hundredth of the exact quotient [|n| / 1024^k]: it is the quotient
    rounded to two decimals. *)
Theorem ram_value_within_half_a_hundredth (text : string) (n k : Z) :
  PyStr.int text = Some n ->
  Z.abs n < 2 ^ 53 -> 0 <= k ->
  exists f,
    ram_value text k = PFloat f
    /\ f_neg f = (n <? 0)
    /\ 2 * Z.abs (100 * Z.abs n - Z.of_N (f_centi f) * 1024 ^ k)
       <= 1024 ^ k.
Proof.
  intros Hint Hn Hk. exists (PyNum.round_gb n k). split; [|split].
  - unfold ram_value. rewrite Hint.
    rewrite small_does_not_overflow; [reflexivity|].
    eapply Z.lt_trans; [exact Hn|reflexivity].
  - reflexivity.
  - rewrite centi_of_round_gb by assumption.
    apply round_half_even_error. now apply Z.pow_pos_nonneg.
Qed.

Lemma ram_value_within_half_a_hundredth_witness :
  exists f,
    ram_value "16270000" 2 = PFloat f
    /\ f_neg f = false
    /\ 2 * Z.abs (100 * Z.abs 16270000 - Z.of_N (f_centi f) * 1024 ^ 2)
       <= 1024 ^ 2.
Proof.
  apply (ram_value_within_half_a_hundredth "16270000" 16270000 2);
    [reflexivity|reflexivity|discriminate].
Defined.

(** X13: rounding keeps the order: of two non-negative sizes below 2^53
    the larger never gets the smaller number of hundredths. *)
Theorem round_gb_monotone (n m k : Z) :
  0 <= n -> n <= m -> m < 2 ^ 53 -> 0 <= k ->
  (f_centi (PyNum.round_gb n k) <= f_centi (PyNum.round_gb m k))%N.
Proof.
  intros Hn Hnm Hm Hk. apply N2Z.inj_le.
  rewrite !centi_of_round_gb by lia.
  apply round_half_even_mono; [now apply Z.pow_pos_nonneg|lia].
Qed.

Lemma round_gb_monotone_witness :
  (f_centi (PyNum.round_gb 8000000 2) <= f_centi (PyNum.round_gb 16270000 2))%N.
Proof.
  apply round_gb_monotone; [discriminate|discriminate|reflexivity|discriminate].
Defined.

End Rounding.

(** ** Decimal output is always converted *)

Section Digits.

Local Open Scope Z_scope.

Lemma digit_cases (c : ascii) :
  is_digit c = true ->
  In c ["0"; "1"; "2"; "3"; "4"; "5"; "6"; "7"; "8"; "9"]%char.
Proof.
  destruct c as [[] [] [] [] [] [] [] []]; intros H;
    try discriminate H; cbn; tauto.
Qed.

Ltac each_digit H :=
  apply digit_cases in H; cbn [In] in H;
  repeat (destruct H as [H|H]; [subst|]); [..|destruct H].

Lemma digit_val_range (c : ascii) :
  is_digit c = true -> exists d, PyStr.digit_val c = Some d /\ 0 <= d <= 9.
Proof. intros H. each_digit H; eexists; (split; [reflexivity|cbn; lia]). Qed.

Lemma digits_from_digits (s : string) (acc : Z) :
  all_digits s = true -> 0 <= acc ->
  exists v,
    PyStr.digits_from acc s = Some v
    /\ acc * 10 ^ Z.of_nat (String.length s) <= v
       < (acc + 1) * 10 ^ Z.of_nat (String.length s).
Proof.
  revert acc. induction s as [|c r IH]; intros acc Hs Hacc.
  - exists acc. split; [reflexivity|]. cbn. lia.
  - cbn [all_digits] in Hs. apply andb_prop in Hs as [Hc Hr].
    destruct (digit_val_range c Hc) as [d [Hd Hrange]].
    cbn [PyStr.digits_from]. rewrite Hd.
    destruct (IH (acc * 10 + d) Hr ltac:(lia)) as [v [Hv Hb]].
    exists v. split; [exact Hv|].
    cbn [String.length]. rewrite Nat2Z.inj_succ, Z.pow_succ_r by lia.
    assert (0 < 10 ^ Z.of_nat (String.length r))
      by (apply Z.pow_pos_nonneg; lia).
    nia.
Qed.

Lemma all_digits_ascii (s : string) :
  all_digits s = true -> PyStr.is_ascii s = true.
Proof.
  induction s as [|c r IH]; [reflexivity|]. cbn [all_digits PyStr.is_ascii].
  intros H. apply andb_prop in H as [Hc Hr]. rewrite (IH Hr).
  each_digit Hc; reflexivity.
Qed.

Lemma all_digits_c_rstrip (s : string) :
  all_digits s = true -> PyStr.c_rstrip s = s.
Proof.
  induction s as [|c r IH]; [reflexivity|]. cbn [all_digits PyStr.c_rstrip].
  intros H. apply andb_prop in H as [Hc Hr]. rewrite (IH Hr).
  destruct r; [|reflexivity]. each_digit Hc; reflexivity.
Qed.

Lemma count_digits_le_length (s : string) :
  (PyStr.count_digits s <= N.of_nat (String.length s))%N.
Proof.
  induction s as [|c r IH]; [reflexivity|].
  cbn [PyStr.count_digits String.length].
  destruct (PyStr.digit_val c); lia.
Qed.

(** A non-empty text of decimal digits, no longer than the digit limit, is
    always accepted by [int], and its value is below [10 ^ length]. *)
Lemma int_of_digits (s : string) :
  s <> "" -> all_digits s = true ->
  (N.of_nat (String.length s) <= PyStr.max_str_digits)%N ->
  exists n,
    PyStr.int s = Some n /\ 0 <= n < 10 ^ Z.of_nat (String.length s).
Proof.
  intros Hne Hs Hcap. destruct s as [|c r]; [contradiction|].
  assert (Hcount : (PyStr.max_str_digits <? PyStr.count_digits (String c r))%N
                   = false).
  { apply N.ltb_ge. etransitivity; [apply count_digits_le_length|exact Hcap]. }
  unfold PyStr.int. rewrite (all_digits_ascii _ Hs).
  assert (Hl : PyStr.c_lstrip (String c r) = String c r).
  { cbn [all_digits] in Hs. apply andb_prop in Hs as [Hc _].
    each_digit Hc; reflexivity. }
  rewrite Hl, (all_digits_c_rstrip _ Hs).
  cbn [all_digits] in Hs. apply andb_prop in Hs as [Hc Hr].
  destruct (digit_val_range c Hc) as [d [Hd Hrange]].
  destruct (digits_from_digits r d Hr ltac:(lia)) as [v [Hv Hb]].
  assert (Hu : PyStr.unsigned_int (String c r) = Some v)
    by (unfold PyStr.unsigned_int; now rewrite Hd, Hcount).
  exists v. split.
  - each_digit Hc; exact Hu.
  - cbn [String.length]. rewrite Nat2Z.inj_succ, Z.pow_succ_r by lia.
    assert (0 < 10 ^ Z.of_nat (String.length r))
      by (apply Z.pow_pos_nonneg; lia).
    nia.
Qed.

(** X14: on Linux and macOS, whenever the memory command succeeds and its
    trimmed output is a run of decimal digits (at most 300 of them), RAM_GB
    holds a non-negative number: neither sentinel is stored. *)
Theorem numeric_output_gives_number (e : Env) (command output : string) :
  (platform_system e = "Linux" /\ command = linux_ram_cmd)
  \/ (platform_system e = "Darwin" /\ command = mac_ram_cmd) ->
  check_output e command = Some output ->
  PyStr.strip output <> "" ->
  all_digits (PyStr.strip output) = true ->
  (String.length (PyStr.strip output) <= 300)%nat ->
  exists f, ram_field e = Some (PFloat f) /\ f_neg f = false.
Proof.
  intros Hsys Hout Hne Hdigits Hlen.
  assert (Hcap : (N.of_nat (String.length (PyStr.strip output))
                  <= PyStr.max_str_digits)%N)
    by (unfold PyStr.max_str_digits; lia).
  destruct (int_of_digits _ Hne Hdigits Hcap) as [n [Hint Hn]].
  assert (Hvalue : forall k,
             ram_value (runner_text e command) k
             = PFloat (PyNum.round_gb n k)).
  { intros k. unfold runner_text. rewrite Hout. unfold ram_value.
    rewrite Hint. rewrite small_does_not_overflow; [reflexivity|].
    rewrite Z.abs_eq by lia. eapply Z.lt_le_trans; [apply Hn|].
    transitivity (10 ^ 300); [apply Z.pow_le_mono_r; lia|].
    apply Z.leb_le. vm_compute. reflexivity. }
  assert (Hneg : forall k, f_neg (PyNum.round_gb n k) = false).
  { intros k. unfold PyNum.round_gb. cbn [f_neg]. apply Z.ltb_ge. lia. }
  destruct Hsys as [[Hs ->]|[Hs ->]].
  - exists (PyNum.round_gb n 2). split; [|apply Hneg].
    rewrite (ram_field_linux e Hs). now rewrite Hvalue.
  - exists (PyNum.round_gb n 3). split; [|apply Hneg].
    rewrite (ram_field_mac e Hs). now rewrite Hvalue.
Qed.

Lemma numeric_output_gives_number_witness :
  let newline := String (ascii_of_nat 10) "" in
  let e := sample_env "Darwin"
             (shell [(mac_ram_cmd, "17179869184" ++ newline)]) WmiMissing in
  exists f, ram_field e = Some (PFloat f) /\ f_neg f = false.
Proof.
  cbv zeta.
  apply (numeric_output_gives_number _ mac_ram_cmd
           ("17179869184" ++ String (ascii_of_nat 10) ""));
    [right; split; reflexivity|reflexivity|discriminate|reflexivity|].
  vm_compute. lia.
Defined.

End Digits.

(** ** Time stamps and file names *)

Lemma string_length_app (a b : string) :
  String.length (a ++ b) = String.length a + String.length b.
Proof. induction a as [|c a IH]; simpl; [reflexivity|now rewrite IH]. Qed.

Lemma append_assoc (a b c : string) : (a ++ b) ++ c = a ++ b ++ c.
Proof. induction a as [|x a IH]; simpl; [reflexivity|now rewrite IH]. Qed.

Lemma app_split_len (a b c d : string) :
  String.length a = String.length c ->
  a ++ b = c ++ d -> a = c /\ b = d.
Proof.
  revert c. induction a as [|x a IH]; intros [|y c] Hlen H;
    try discriminate Hlen.
  - now split.
  - simpl in H. injection H as <- H. injection Hlen as Hlen.
    destruct (IH c Hlen H) as [-> ->]. now split.
Qed.

Lemma append_inj_r (a b s : string) : a ++ s = b ++ s -> a = b.
Proof.
  intros H. apply app_split_len in H; [tauto|].
  apply (f_equal String.length) in H. rewrite !string_length_app in H. lia.
Qed.

Lemma all_digits_app (a b : string) :
  all_digits (a ++ b) = all_digits a && all_digits b.
Proof.
  induction a as [|c a IH]; simpl; [reflexivity|].
  now rewrite IH, andb_assoc.
Qed.

Lemma below_100 (P : nat -> bool) :
  forallb P (seq 0 100) = true -> forall n, n < 100 -> P n = true.
Proof.
  intros H n Hn. rewrite forallb_forall in H. apply H.
  apply in_seq. lia.
Qed.

Lemma pad2_length (n : nat) :
  n < 100 -> String.length (PyStr.pad2 n) = 2.
Proof.
  intros Hn. apply Nat.eqb_eq.
  apply (below_100 (fun n => String.length (PyStr.pad2 n) =? 2));
    [vm_compute; reflexivity|exact Hn].
Qed.

Lemma pad2_inj (n m : nat) :
  n < 100 -> m < 100 -> PyStr.pad2 n = PyStr.pad2 m -> n = m.
Proof.
  intros Hn Hm H.
  assert (Hall : forallb
            (fun n => forallb
               (fun m => implb (String.eqb (PyStr.pad2 n) (PyStr.pad2 m))
                               (n =? m))
               (seq 0 100))
            (seq 0 100) = true) by (vm_compute; reflexivity).
  pose proof (below_100 _ Hall n Hn) as Hrow. cbv beta in Hrow.
  pose proof (below_100 _ Hrow m Hm) as Hcell. cbv beta in Hcell.
  rewrite H, String.eqb_refl in Hcell. now apply Nat.eqb_eq.
Qed.

Lemma pad2_digits (n : nat) : all_digits (PyStr.pad2 n) = true.
Proof.
  unfold PyStr.pad2. destruct (n <? 10); [|apply str_of_nat_digits].
  cbn [all_digits]. now rewrite str_of_nat_digits.
Qed.

Lemma strftime_stamp_inj (t1 t2 : datetime) :
  two_digit_fields t1 = true -> two_digit_fields t2 = true ->
  strftime_stamp t1 = strftime_stamp t2 -> t1 = t2.
Proof.
  unfold two_digit_fields. intros H1 H2 H.
  repeat (apply andb_prop in H1 as [H1 ?]).
  repeat (apply andb_prop in H2 as [H2 ?]).
  repeat match goal with
         | H : (_ <? _) = true |- _ => apply Nat.ltb_lt in H
         end.
  destruct t1 as [y1 mo1 d1 h1 mi1 s1], t2 as [y2 mo2 d2 h2 mi2 s2].
  unfold strftime_stamp in H. cbn [dt_year dt_month dt_day dt_hour
                                   dt_minute dt_second] in *.
  rewrite <- (append_assoc (PyStr.pad2 mo1)), <- (append_assoc (PyStr.pad2 mo2)),
    <- (append_assoc (PyStr.str_of_nat y1)),
    <- (append_assoc (PyStr.str_of_nat y2)) in H.
  apply digits_then_suffix in H;
    [|rewrite !all_digits_app, str_of_nat_digits, !pad2_digits; reflexivity
     |rewrite !all_digits_app, str_of_nat_digits, !pad2_digits; reflexivity
     |reflexivity|reflexivity].
  destruct H as [Hdate Htime].
  simpl in Htime. injection Htime as Htime.
  apply app_split_len in Htime; [|now rewrite !pad2_length].
  destruct Htime as [Hh Htime].
  apply app_split_len in Htime; [|now rewrite !pad2_length].
  destruct Htime as [Hmi Hs].
  rewrite ?append_assoc in Hdate.
  assert (Hylen : String.length (PyStr.str_of_nat y1)
                  = String.length (PyStr.str_of_nat y2)).
  { apply (f_equal String.length) in Hdate.
    rewrite !string_length_app, !pad2_length in Hdate by assumption. lia. }
  apply app_split_len in Hdate; [|exact Hylen].
  destruct Hdate as [Hy Hdate].
  apply app_split_len in Hdate; [|now rewrite !pad2_length].
  destruct Hdate as [Hmo Hd].
  apply str_of_nat_inj in Hy. apply pad2_inj in Hmo, Hd, Hh, Hmi, Hs;
    try assumption.
  now subst.
Qed.

(** X15: the time stamp keeps reports apart.  Two runs that answer the
    prompt alike but save at different calendar seconds return different
    CSV paths and different JSON paths, so neither run overwrites the
    other's report. *)
Theorem distinct_seconds_distinct_reports (e1 e2 : Env) (st1 st2 : State)
  (response : string) :
  stdin_line e1 = Some response -> stdin_line e2 = Some response ->
  (forall p, fs_writable e1 p = true) ->
  (forall p, fs_writable e2 p = true) ->
  two_digit_fields (now_save e1) = true ->
  two_digit_fields (now_save e2) = true ->
  now_save e1 <> now_save e2 ->
  exists csv1 json1 csv2 json2,
    snd (save_results e1 st1) = Return (csv1, json1)
    /\ snd (save_results e2 st2) = Return (csv2, json2)
    /\ csv1 <> csv2 /\ json1 <> json2.
Proof.
  intros Hin1 Hin2 Hw1 Hw2 Ht1 Ht2 Hne.
  rewrite (save_results_eq e1 st1 response Hin1 Hw1).
  rewrite (save_results_eq e2 st2 response Hin2 Hw2).
  do 4 eexists. split; [reflexivity|]. split; [reflexivity|].
  assert (Hbase : forall ext,
             report_base response (strftime_stamp (now_save e1)) ++ ext
             = report_base response (strftime_stamp (now_save e2)) ++ ext
             -> False).
  { intros ext H. apply append_inj_r in H. unfold report_base in H.
    apply append_inj_l in H. apply append_inj_l in H.
    apply Hne. now apply strftime_stamp_inj. }
  split; intros H; injection H as _ H; exact (Hbase _ H).
Qed.

Lemma distinct_seconds_distinct_reports_witness :
  let e1 := with_stdin (sample_env "Linux" all_fail WmiMissing) (Some "lab7") in
  let e2 := with_save_time e1 (mkDatetime 2024 3 5 14 7 10) in
  exists csv1 json1 csv2 json2,
    snd (save_results e1 init) = Return (csv1, json1)
    /\ snd (save_results e2 init) = Return (csv2, json2)
    /\ csv1 <> csv2 /\ json1 <> json2.
Proof.
  cbv zeta.
  apply (distinct_seconds_distinct_reports _ _ init init "lab7");
    try reflexivity.
  discriminate.
Defined.

(** ** The script *)

Lemma collect_info_failure (e : Env) :
  run_succeeds e = false ->
  exists st x, run_collect e = (st, Raise x) /\ trace st = [].
Proof.
  unfold run_succeeds. intros H.
  apply orb_false_elim in H as [H Hw]. apply orb_false_elim in H as [Hl Hd].
  destruct (String.eqb (platform_system e) "Windows") eqn:Hwin.
  - cbn [andb] in Hw. apply String.eqb_eq in Hwin.
    destruct (collect_info_windows_raises e Hwin Hw)
      as [st [x [Heq [_ [Ht _]]]]].
    now exists st, x.
  - exists (common_state e), TypeError. split; [|reflexivity].
    now apply collect_info_unrecognized_eq.
Qed.

Lemma script_failure_eq (e : Env) (second_line : option string) :
  run_succeeds e = false ->
  exists x,
    run_stdout (main e second_line) = [ErrorLine x]
    /\ trace (run_state (main e second_line)) = [Asked exit_prompt]
    /\ run_outcome (main e second_line)
       = match stdin_line e with
         | Some _ => Return tt
         | None => Raise EOFError
         end.
Proof.
  intros Hfail. destruct (collect_info_failure e Hfail) as [st [x [Heq Ht]]].
  unfold run_collect in Heq. exists x.
  unfold main, exit_line. rewrite (bind_raise _ _ _ _ _ Heq), Heq.
  cbn [fst snd run_stdout run_state run_outcome emit trace specs].
  rewrite Ht. repeat split.
Qed.

(** X16: when the collection pass fails (an unrecognized platform, or a
    Windows management interface that is importable but does not answer),
    the script prints exactly one line, the error line; it asks for no
    report name, makes no directory and writes no file; the only prompt is
    the final one, which then reads the first line of standard input. *)
Theorem script_reports_failure_once (e : Env) (second_line : option string) :
  run_succeeds e = false ->
  exists x,
    run_stdout (main e second_line) = [ErrorLine x]
    /\ trace (run_state (main e second_line)) = [Asked exit_prompt]
    /\ run_outcome (main e second_line)
       = match stdin_line e with
         | Some _ => Return tt
         | None => Raise EOFError
         end.
Proof. apply script_failure_eq. Qed.

Lemma script_reports_failure_once_witness :
  let e := sample_env "FreeBSD" all_fail WmiMissing in
  exists x,
    run_stdout (main e None) = [ErrorLine x]
    /\ trace (run_state (main e None)) = [Asked exit_prompt]
    /\ run_outcome (main e None)
       = match stdin_line e with
         | Some _ => Return tt
         | None => Raise EOFError
         end.
Proof. cbv zeta. apply script_reports_failure_once. reflexivity. Defined.

Lemma collect_info_success (e : Env) :
  run_succeeds e = true ->
  exists d commands, run_collect e = collected d commands.
Proof.
  unfold run_succeeds. intros Hok.
  destruct (String.eqb (platform_system e) "Linux") eqn:Hl.
  { apply String.eqb_eq in Hl. do 2 eexists.
    apply (collect_info_linux_eq e Hl). }
  destruct (String.eqb (platform_system e) "Darwin") eqn:Hd.
  { apply String.eqb_eq in Hd. do 2 eexists.
    apply (collect_info_mac_eq e Hd). }
  cbn [orb] in Hok. apply andb_prop in Hok as [Hw Hinfo].
  apply String.eqb_eq in Hw. unfold windows_info_ok in Hinfo.
  destruct (wmi e) as [| |c] eqn:Hwmi; [|discriminate|].
  - do 2 eexists. apply (collect_info_windows_fallback_eq e Hw Hwmi).
  - destruct (structured_info_fields c) as [fields|] eqn:Hf; [|discriminate].
    do 2 eexists.
    apply (collect_info_windows_structured_eq e c fields Hw Hwmi Hf).
Qed.

Lemma ran_events_touch_no_file (commands : list string) :
  forallb (fun ev => negb (is_file_event ev)) (map Ran commands) = true.
Proof. induction commands as [|c r IH]; [reflexivity|exact IH]. Qed.

(** X17: when the collection pass succeeds, a report name is given and
    the files can be written, the script prints the banner, the two saved
    paths, the heading, and then one line "key: value" per record field in
    the record's order; both reports have been written from that same
    record, and the last thing it does is the exit prompt. *)
Theorem script_prints_every_field (e : Env) (response : string)
  (second_line : option string) :
  run_succeeds e = true ->
  stdin_line e = Some response ->
  (forall p, fs_writable e p = true) ->
  exists d commands csv_file json_file,
    run_collect e = (mkState d commands, Return d)
    /\ run_stdout (main e second_line)
       = success_lines (csv_file, json_file) d
    /\ length (run_stdout (main e second_line)) = 4 + length d
    /\ specs (run_state (main e second_line)) = d
    /\ trace (run_state (main e second_line))
       = (commands
          ++ [Asked report_prompt; MadeDir (reports_dir e);
              Wrote csv_file (CsvFile (csv_rows d));
              Wrote json_file (JsonFile (json_members d));
              Asked exit_prompt])%list
    /\ run_outcome (main e second_line)
       = match second_line with
         | Some _ => Return tt
         | None => Raise EOFError
         end.
Proof.
  intros Hok Hin Hw.
  destruct (collect_info_success e Hok) as [d [commands Heq]].
  unfold run_collect, collected in Heq.
  exists d, (map Ran commands). do 2 eexists. split; [exact Heq|].
  unfold main, exit_line. rewrite (bind_return _ _ _ _ _ Heq), Heq.
  rewrite (save_results_eq e _ response Hin Hw), Hin.
  cbn [fst snd run_stdout run_state run_outcome emit trace specs].
  split; [reflexivity|]. split.
  - unfold success_lines. rewrite List.length_app. cbn [length].
    now rewrite length_map.
  - split; [reflexivity|]. split; [|reflexivity].
    rewrite <- !app_assoc. reflexivity.
Qed.

Lemma script_prints_every_field_witness :
  let e := with_stdin (sample_env "Darwin" all_fail WmiMissing) (Some "lab7") in
  exists d commands csv_file json_file,
    run_collect e = (mkState d commands, Return d)
    /\ run_stdout (main e (Some "")) = success_lines (csv_file, json_file) d
    /\ length (run_stdout (main e (Some ""))) = 4 + length d
    /\ specs (run_state (main e (Some ""))) = d
    /\ trace (run_state (main e (Some "")))
       = (commands
          ++ [Asked report_prompt; MadeDir (reports_dir e);
              Wrote csv_file (CsvFile (csv_rows d));
              Wrote json_file (JsonFile (json_members d));
              Asked exit_prompt])%list
    /\ run_outcome (main e (Some "")) = Return tt.
Proof.
  cbv zeta.
  apply (script_prints_every_field _ "lab7" (Some "")); reflexivity.
Defined.

(** X18: with standard input at its end the script always finishes by
    raising EOFError, on every platform: either the collection failed and
    the final prompt finds no line, or the report prompt raised EOFError
    (caught and printed) and the final prompt raises it again, outside any
    handler.  No report is written. *)
Theorem script_without_input_raises (e : Env) (second_line : option string) :
  stdin_line e = None ->
  run_outcome (main e second_line) = Raise EOFError
  /\ (exists x, run_stdout (main e second_line) = [ErrorLine x])
  /\ forallb (fun ev => negb (is_file_event ev))
             (trace (run_state (main e second_line))) = true.
Proof.
  intros Hin. destruct (run_succeeds e) eqn:Hok.
  - destruct (collect_info_success e Hok) as [d [commands Heq]].
    unfold run_collect, collected in Heq.
    pose proof (save_results_eof e (mkState d (map Ran commands)) Hin)
      as Heof.
    unfold main, exit_line. rewrite (bind_return _ _ _ _ _ Heq), Heq, Hin.
    rewrite Heof.
    cbn [fst snd run_stdout run_state run_outcome emit trace specs].
    split; [reflexivity|]. split; [eexists; reflexivity|].
    rewrite !forallb_app, ran_events_touch_no_file. reflexivity.
  - destruct (script_failure_eq e second_line Hok)
      as [x [Hout [Htrace Hres]]].
    rewrite Hres, Hin, Htrace. split; [reflexivity|].
    split; [now exists x|reflexivity].
Qed.

Lemma script_without_input_raises_witness :
  let e := with_stdin (sample_env "Linux" all_fail WmiMissing) None in
  run_outcome (main e None) = Raise EOFError
  /\ (exists x, run_stdout (main e None) = [ErrorLine x])
  /\ forallb (fun ev => negb (is_file_event ev))
             (trace (run_state (main e None))) = true.
Proof. cbv zeta. apply script_without_input_raises. reflexivity. Defined.

(** ** Which command feeds which field *)

(** X19: on Linux, on macOS and on the Windows fallback the whole record
    is determined by the runner: after the common fields come the
    platform's fields, each holding the runner's text for its own command
    (RAM_GB converted on Linux and macOS, stored as text on Windows), then
    GPU_1_Name with the probe text and the two "Unknown" defaults; and what
    [collect_info] returns is that record. *)
Theorem record_from_commands (e : Env) :
  (platform_system e = "Linux" ->
   let d := (common_fields e ++ linux_fields e
             ++ name_only_fields 0 (linux_gpu_text e))%list in
   specs (fst (run_collect e)) = d /\ snd (run_collect e) = Return d)
  /\ (platform_system e = "Darwin" ->
      let d := (common_fields e ++ mac_fields e
                ++ name_only_fields 0 (runner_text e mac_gpu_cmd))%list in
      specs (fst (run_collect e)) = d /\ snd (run_collect e) = Return d)
  /\ (platform_system e = "Windows" -> wmi e = WmiMissing ->
      let d := (common_fields e ++ windows_fallback_fields e
                ++ name_only_fields 0 (runner_text e wmic_gpu_cmd))%list in
      specs (fst (run_collect e)) = d /\ snd (run_collect e) = Return d).
Proof.
  split; [|split].
  - intros Hs. rewrite (collect_info_linux_eq e Hs). now split.
  - intros Hs. rewrite (collect_info_mac_eq e Hs). now split.
  - intros Hs Hw. rewrite (collect_info_windows_fallback_eq e Hs Hw).
    now split.
Qed.

(** ** Trimming keeps the inside of the output *)

Lemma lstrip_skips (l u : string) :
  PyStr.all_space l = true -> PyStr.lstrip (l ++ u) = PyStr.lstrip u.
Proof.
  induction l as [|c l IH]; simpl; [reflexivity|].
  intros H. apply andb_prop in H as [Hc Hl]. rewrite Hc. now apply IH.
Qed.

Lemma lstrip_fixed (t : string) :
  PyStr.no_space_at (PyStr.first_char t) = true -> PyStr.lstrip t = t.
Proof.
  destruct t as [|c t]; simpl; [reflexivity|].
  intros H. apply negb_true_iff in H. now rewrite H.
Qed.

Lemma rstrip_all_space (r : string) :
  PyStr.all_space r = true -> PyStr.rstrip r = "".
Proof.
  induction r as [|c r IH]; simpl; [reflexivity|].
  intros H. apply andb_prop in H as [Hc Hr]. now rewrite (IH Hr), Hc.
Qed.

Lemma rstrip_drops (t r : string) :
  PyStr.no_space_at (PyStr.last_char t) = true ->
  PyStr.all_space r = true ->
  PyStr.rstrip (t ++ r) = t.
Proof.
  intros Ht Hr. induction t as [|c t IH].
  - simpl. now apply rstrip_all_space.
  - cbn [append PyStr.rstrip]. destruct t as [|c' t'].
    + cbn [append]. rewrite (rstrip_all_space r Hr).
      cbn in Ht. apply negb_true_iff in Ht. now rewrite Ht.
    + rewrite IH by exact Ht. reflexivity.
Qed.

(** X20: the runner returns the command's output without the whitespace
    around it and nothing else is touched: if the output is a trimmed text
    [t] (which may hold blanks and line breaks inside) between two runs of
    whitespace, the runner returns exactly [t]. *)
Theorem runner_keeps_inside (e : Env) (command l t r : string) (st : State) :
  check_output e command = Some (l ++ t ++ r) ->
  PyStr.all_space l = true ->
  PyStr.all_space r = true ->
  PyStr.trimmed t = true ->
  get_command_output e command st = (ran st command, Return t).
Proof.
  intros Hout Hl Hr Ht. rewrite get_command_output_eq.
  unfold runner_text. rewrite Hout. unfold PyStr.trimmed in Ht.
  apply andb_prop in Ht as [Hfirst Hlast].
  unfold PyStr.strip. rewrite lstrip_skips by exact Hl.
  destruct t as [|c t].
  - cbn [append]. rewrite (lstrip_all_space r Hr). reflexivity.
  - rewrite lstrip_fixed.
    + now rewrite rstrip_drops.
    + exact Hfirst.
Qed.

Lemma runner_keeps_inside_witness :
  let e := sample_env "Windows" wmic_shell WmiMissing in
  get_command_output e "wmic cpu get name" init
  = (ran init "wmic cpu get name",
     Return ("Name  " ++ newline ++ "Acme CPU")).
Proof.
  cbv zeta.
  apply (runner_keeps_inside _ _ "" ("Name  " ++ newline ++ "Acme CPU") "");
    reflexivity.
Defined.
